(** * Recommendations service: shallow embedding of service/routes.py

    The handlers of [service/routes.py] are modelled over an explicit
    state holding the persistence store (a [gmap] from primary key to row),
    the store clock used for timestamps, and the application log.  Every
    handler is a computation in a small state-and-error monad [M]: an
    [abort] (HTTP error) or a [BadRequest] leaves the state as it is at the
    point of the raise. *)

From stdpp Require Import base gmap strings list.
From Stdlib Require Import ZArith Ascii String.
Open Scope Z_scope.

(* ------------------------------------------------------------------ *)
(** ** Data model *)

(** A row of the [Recommendations] table, with the fields of the
    serialized JSON shape [{id, product_id, recommended_id,
    recommendation_type, status, like, dislike, created_at,
    last_updated}]; timestamps are store ticks. *)
Record Recommendation := mkRec {
  id : Z;
  product_id : Z;
  recommended_id : Z;
  recommendation_type : string;
  status : string;
  like : Z;
  dislike : Z;
  created_at : Z;
  last_updated : Z
}.

Definition set_id (r : Recommendation) (v : Z) : Recommendation :=
  mkRec v r.(product_id) r.(recommended_id) r.(recommendation_type) r.(status)
        r.(like) r.(dislike) r.(created_at) r.(last_updated).
Definition set_like (r : Recommendation) (v : Z) : Recommendation :=
  mkRec r.(id) r.(product_id) r.(recommended_id) r.(recommendation_type) r.(status)
        v r.(dislike) r.(created_at) r.(last_updated).
Definition set_dislike (r : Recommendation) (v : Z) : Recommendation :=
  mkRec r.(id) r.(product_id) r.(recommended_id) r.(recommendation_type) r.(status)
        r.(like) v r.(created_at) r.(last_updated).
Definition set_last_updated (r : Recommendation) (v : Z) : Recommendation :=
  mkRec r.(id) r.(product_id) r.(recommended_id) r.(recommendation_type) r.(status)
        r.(like) r.(dislike) r.(created_at) v.

(** Errors raised by the handlers: [abort(404, ...)] and [BadRequest]
    (the interpolated id of the 404 message is left out). *)
Inductive err :=
| NotFound (msg : string)
| InvalidParameter (msg : string).

Definition http_code (e : err) : Z :=
  match e with NotFound _ => 404 | InvalidParameter _ => 400 end.

(** Log records written through [app.logger] (format strings only). *)
Inductive log_entry :=
| LogInfo (msg : string)
| LogDebug (msg : string)
| LogError (msg : string).

Record St := mkSt {
  db : gmap Z Recommendation;
  clock : Z;
  log : list log_entry
}.

(** Response bodies: a serialized record, or the empty body of a 204. *)
Inductive body :=
| BRec (r : Recommendation)
| BEmpty.

Definition serialize (r : Recommendation) : body := BRec r.

(* ------------------------------------------------------------------ *)
(** ** The state-and-error monad *)

Definition M (A : Type) : Type := St -> (err + A) * St.

Global Instance M_ret : MRet M := fun A x s => (inr x, s).
Global Instance M_bind : MBind M := fun A B f c s =>
  match c s with
  | (inl e, s') => (inl e, s')
  | (inr x, s') => f x s'
  end.

Definition abort {A} (e : err) : M A := fun s => (inl e, s).

Definition emit (e : log_entry) : M unit :=
  fun s => (inr tt, mkSt s.(db) s.(clock) (s.(log) ++ [e])).

(* ------------------------------------------------------------------ *)
(** ** Persistence layer *)

(** Modelled from the spec: [Recommendations.find], [update] and [delete]
    of service/models.py (not in this source tree).  The spec treats the
    store as an external collaborator providing find-by-id, update and
    delete, with [last_updated] set by the store.  A row is addressed by
    the primary key carried in the object, as in the ORM. *)
Definition find (k : Z) : M (option Recommendation) :=
  fun s => (inr (s.(db) !! k), s).

Definition rec_update (r : Recommendation) : M Recommendation :=
  fun s =>
    let r' := set_last_updated r s.(clock) in
    (inr r', mkSt (<[r.(id) := r']> s.(db)) s.(clock) s.(log)).

Definition rec_delete (r : Recommendation) : M unit :=
  fun s => (inr tt, mkSt (delete r.(id) s.(db)) s.(clock) s.(log)).


(** Rows are stored under their own primary key. *)
Definition wf_db (m : gmap Z Recommendation) : Prop :=
  forall k r, m !! k = Some r -> r.(id) = k.

(* ------------------------------------------------------------------ *)
(** ** Request payloads *)

(** JSON values of a request body and a body as a JSON object. *)
Inductive jval :=
| JInt (n : Z)
| JStr (s : string)
| JNull.

Definition payload := list (string * jval).

Fixpoint jget (k : string) (data : payload) : option jval :=
  match data with
  | [] => None
  | (k', v) :: rest => if String.eqb k k' then Some v else jget k rest
  end.

Definition rec_types : list string := ["cross-sell"; "up-sell"; "accessory"].
Definition rec_statuses : list string := ["active"; "expired"; "draft"].

Definition str_in (v : string) (opts : list string) : bool :=
  existsb (String.eqb v) opts.

(** Modelled from the spec: [Recommendations.deserialize] of
    service/models.py (not in this source tree).  Following the spec's data
    model and error taxonomy: [product_id] and [recommended_id] are
    required integers, [recommendation_type] and [status] are required and
    must be one of the enumerated values, [like] and [dislike] are
    non-negative integers defaulting to 0; a malformed or out-of-enum body
    field fails with [InvalidParameter] (HTTP 400).  The mutable fields are
    replaced; the identity and the store-set timestamps are kept. *)
Definition deserialize (data : payload) (r : Recommendation) : M Recommendation :=
  let counter k :=
    match jget k data with
    | None => Some 0
    | Some (JInt n) => if 0 <=? n then Some n else None
    | Some _ => None
    end in
  match jget "product_id" data, jget "recommended_id" data,
        jget "recommendation_type" data, jget "status" data,
        counter "like", counter "dislike" with
  | Some (JInt p), Some (JInt q), Some (JStr t), Some (JStr st), Some l, Some d =>
      if str_in t rec_types && str_in st rec_statuses
      then mret (mkRec r.(id) p q t st l d r.(created_at) r.(last_updated))
      else abort (InvalidParameter "Invalid recommendation data")
  | _, _, _, _, _, _ => abort (InvalidParameter "Invalid recommendation data")
  end.

(* ------------------------------------------------------------------ *)
(** ** Handlers of /recommendations/<id>, .../like and .../dislike *)

Definition response := (Z * body)%type.

(** [RecommendationResource.get] *)
Definition RecommendationResource_get (recommendation_id : Z) : M response :=
  emit (LogInfo "Request to Retrieve a recommendation with id [%s]");;
  recommendation ← find recommendation_id;
  match recommendation with
  | None => abort (NotFound "Recommendation with id was not found.")
  | Some r => mret (200, serialize r)
  end.

(** [RecommendationResource.put] *)
Definition RecommendationResource_put (recommendation_id : Z) (data : payload)
  : M response :=
  emit (LogInfo "Request to Update a recommendation with id [%s]");;
  recommendation ← find recommendation_id;
  match recommendation with
  | None => abort (NotFound "Recommendation with id was not found.")
  | Some r =>
      emit (LogDebug "Payload = %s");;
      r1 ← deserialize data r;
      let r2 := set_id r1 recommendation_id in
      r3 ← rec_update r2;
      mret (200, serialize r3)
  end.

(** [RecommendationResource.delete] *)
Definition RecommendationResource_delete (recommendation_id : Z) : M response :=
  emit (LogInfo "Request to Delete a recommendation with id [%s]");;
  recommendation ← find recommendation_id;
  (match recommendation with
   | Some r =>
       rec_delete r;;
       emit (LogInfo "Recommendation with id [%s] was deleted")
   | None => mret tt
   end);;
  mret (204, BEmpty).

(** [LikeResource.put] *)
Definition LikeResource_put (recommendation_id : Z) : M response :=
  emit (LogInfo "Request to like a recommendation with id: %d");;
  recommendation ← find recommendation_id;
  match recommendation with
  | None => abort (NotFound "Recommendation with id was not found.")
  | Some r =>
      r' ← rec_update (set_like r (r.(like) + 1));
      emit (LogInfo "Recommendation with id [%s] has been liked!");;
      mret (200, serialize r')
  end.

(** [DislikeResource.put] *)
Definition DislikeResource_put (recommendation_id : Z) : M response :=
  emit (LogInfo "Request to dislike a recommendation with id: %d");;
  recommendation ← find recommendation_id;
  match recommendation with
  | None => abort (NotFound "Recommendation with id was not found.")
  | Some r =>
      r' ← rec_update (set_dislike r (r.(dislike) + 1));
      emit (LogInfo "Recommendation with id [%s] has been disliked!");;
      mret (200, serialize r')
  end.

(* ------------------------------------------------------------------ *)
(** ** Query strings and Python's [int] *)

(** Raw query parameters, as the multi-dict [request.args]: pairs in
    request order, a key may repeat. *)
Definition query := list (string * string).

(** [request.args.get(k)]: the first value of [k]. *)
Fixpoint args_get (k : string) (q : query) : option string :=
  match q with
  | [] => None
  | (k', v) :: rest => if String.eqb k k' then Some v else args_get k rest
  end.

(** [request.args.getlist(k)]: all values of [k], in order. *)
Definition args_getlist (k : string) (q : query) : list string :=
  map snd (List.filter (fun kv => String.eqb k kv.1) q).

(** Characters that [int()] strips around its argument once the text is
    made ASCII: CPython's [Py_ISSPACE], i.e. space and \t \n \v \f \r. *)
Definition is_space (c : ascii) : bool :=
  let n := nat_of_ascii c in
  (Nat.eqb n 32 || ((9 <=? n)%nat && (n <=? 13)%nat))%bool.

Definition is_digit (c : ascii) : bool :=
  let n := nat_of_ascii c in ((48 <=? n)%nat && (n <=? 57)%nat)%bool.

Definition digit_val (c : ascii) : Z := Z.of_nat (nat_of_ascii c) - 48.

Fixpoint drop_spaces (cs : list ascii) : list ascii :=
  match cs with
  | c :: rest => if is_space c then drop_spaces rest else cs
  | [] => []
  end.

Definition strip (cs : list ascii) : list ascii :=
  rev (drop_spaces (rev (drop_spaces cs))).

(** Digits after the first one: a single [_] may separate two digits. *)
Fixpoint more_digits (cs : list ascii) (acc : Z) : option Z :=
  match cs with
  | [] => Some acc
  | c :: rest =>
      if is_digit c then more_digits rest (acc * 10 + digit_val c)
      else if Ascii.eqb c "_"%char then
        match rest with
        | d :: rest' =>
            if is_digit d then more_digits rest' (acc * 10 + digit_val d) else None
        | [] => None
        end
      else None
  end.

Definition unsigned_digits (cs : list ascii) : option Z :=
  match cs with
  | c :: rest => if is_digit c then more_digits rest (digit_val c) else None
  | [] => None
  end.

(** [_PyUnicode_TransformDecimalAndSpaceToASCII] on one character of a
    string whose code points are all below 256 (each [ascii] of a Rocq
    [string] read as one Latin-1 code point): a code point below 127 is
    kept, the Unicode white space among the others (U+0085 and U+00A0)
    becomes a space, and any other one (none of them is a decimal digit)
    becomes [?], which no later step accepts. *)
Definition to_ascii_char (c : ascii) : ascii :=
  let n := nat_of_ascii c in
  if (n <? 127)%nat then c
  else if (Nat.eqb n 133 || Nat.eqb n 160)%bool then " "%char
  else "?"%char.

(** The number of decimal digits [int()] counts against its limit. *)
Definition digit_count (cs : list ascii) : nat := List.length (List.filter is_digit cs).

(** The default limit on the digits of an [int()] argument (CPython 3.11
    and later, and the security releases 3.7.14 to 3.10.7). *)
Definition max_str_digits : nat := 4300.

(** [int(s)] on a string, base 10 (CPython's [PyLong_FromUnicodeObject]):
    the text is made ASCII, then surrounding white space, an optional sign,
    and digits with single underscores between them are read; more than
    [max_str_digits] digits raise too.  [None] stands for the [ValueError].
    This is [int()] on the strings whose code points are all below 256. *)
Definition py_int_latin1 (s : string) : option Z :=
  let cs := strip (map to_ascii_char (list_ascii_of_string s)) in
  if (max_str_digits <? digit_count cs)%nat then None
  else
    match cs with
    | c :: rest =>
        if Ascii.eqb c "-"%char then option_map Z.opp (unsigned_digits rest)
        else if Ascii.eqb c "+"%char then unsigned_digits rest
        else unsigned_digits (c :: rest)
    | [] => None
    end.

(** Python's [int()] on a string, as used by the list route: by the
    argument parser ([type=int]) and by [parse_int_param].  The route's
    definitions below take it as a parameter; [cpython_int] is the model
    of CPython's [int()] above. *)
Class IntParser := { py_int : string -> option Z }.

Definition cpython_int : IntParser := {| py_int := py_int_latin1 |}.

Section ListRoute.
Context {IP : IntParser}.

(* ------------------------------------------------------------------ *)
(** ** The query-string parser [recommendation_args] *)

(** Python values held by parsed arguments and by the filters dict. *)
Inductive pyval :=
| VInt (n : Z)
| VStr (s : string).

Inductive arg_type := TInt | TStr.

(** The arguments registered on [recommendation_args], in order. *)
Definition recommendation_args : list (string * arg_type) :=
  [("product_id", TInt); ("recommended_id", TInt);
   ("recommendation_type", TStr); ("status", TStr);
   ("page", TInt); ("limit", TInt);
   ("sort_by", TStr); ("order", TStr)].

Definition convert (t : arg_type) (v : string) : option pyval :=
  match t with
  | TInt => option_map VInt (py_int v)
  | TStr => Some (VStr v)
  end.

(** flask_restx's [Argument.parse] for a query-string argument with
    [action="store"], no default and [bundle_errors] off: every value of the
    key is converted, the first failing conversion aborts with 400, the
    first converted value is kept, and an absent key gives [None]. *)
Definition argument_parse_values (name : string) (t : arg_type) (q : query)
  : option (option pyval) :=
  match args_getlist name q with
  | [] => Some None
  | v :: vs =>
      match mapM (convert t) (v :: vs) with
      | Some (x :: _) => Some (Some x)
      | _ => None
      end
  end.

(** [Argument.parse] run inside the request. *)
Definition argument_parse (name : string) (t : arg_type) (q : query)
  : M (option pyval) :=
  match argument_parse_values name t q with
  | Some v => mret v
  | None => abort (InvalidParameter "Input payload validation failed")
  end.

(** The parsed arguments: every registered name, with its value or [None]. *)
Definition parsed_args := list (string * option pyval).

Fixpoint parse_args_from (spec : list (string * arg_type)) (q : query)
  : M parsed_args :=
  match spec with
  | [] => mret []
  | (name, t) :: rest =>
      v ← argument_parse name t q;
      vs ← parse_args_from rest q;
      mret ((name, v) :: vs)
  end.

(** [recommendation_args.parse_args()] *)
Definition parse_args (q : query) : M parsed_args :=
  parse_args_from recommendation_args q.

(* ------------------------------------------------------------------ *)
(** ** Helpers of the list route *)

(** The filters dict, in insertion order. *)
Definition filters := list (string * pyval).

(** [filters[k] = v] *)
Fixpoint dict_set (k : string) (v : pyval) (f : filters) : filters :=
  match f with
  | [] => [(k, v)]
  | (k', v') :: rest =>
      if String.eqb k k' then (k, v) :: rest else (k', v') :: dict_set k v rest
  end.

Fixpoint dict_get (k : string) (f : filters) : option pyval :=
  match f with
  | [] => None
  | (k', v) :: rest => if String.eqb k k' then Some v else dict_get k rest
  end.

(** [args[k]] of the parsed arguments; [None] when the key is missing. *)
Fixpoint arg_lookup (k : string) (args : parsed_args) : option (option pyval) :=
  match args with
  | [] => None
  | (k', v) :: rest => if String.eqb k k' then Some v else arg_lookup k rest
  end.

(** [parse_int_param]: [int(request.args.get(param_name))]; the
    [TypeError] of [int(None)] and the [ValueError] both log and raise. *)
Definition parse_int_param (q : query) (param_name : string) : M Z :=
  match args_get param_name q ≫= py_int with
  | Some n => mret n
  | None =>
      emit (LogError ("Invalid " ++ param_name));;
      abort (InvalidParameter "Invalid data type: must be an integer")
  end.

Fixpoint py_str_list (l : list string) : string :=
  match l with
  | [] => ""
  | [x] => "'" ++ x ++ "'"
  | x :: rest => "'" ++ x ++ "', " ++ py_str_list rest
  end.

(** [validate_enum_param] *)
Definition validate_enum_param (param_name : string) (value : pyval)
  (valid_options : list string) : M pyval :=
  let found := match value with VStr s => str_in s valid_options | VInt _ => false end in
  if found then mret value
  else
    emit (LogError ("Invalid " ++ param_name));;
    abort (InvalidParameter ("Invalid " ++ param_name ++ ": must be one of ["
                             ++ py_str_list valid_options ++ "]")).

(** [if k in args and args[k] is not None: ...] *)
Definition when_present (args : parsed_args) (k : string)
  (step : pyval -> filters -> M filters) (f : filters) : M filters :=
  match arg_lookup k args with
  | Some (Some v) => step v f
  | _ => mret f
  end.

Definition int_step (q : query) (k : string) (_ : pyval) (f : filters) : M filters :=
  n ← parse_int_param q k;
  mret (dict_set k (VInt n) f).

Definition enum_step (k : string) (opts : list string) (v : pyval) (f : filters)
  : M filters :=
  v' ← validate_enum_param k v opts;
  mret (dict_set k v' f).

Definition pass_step (k : string) (v : pyval) (f : filters) : M filters :=
  mret (dict_set k v f).

(** [filters_from_args] *)
Definition filters_from_args (args : parsed_args) (q : query) : M filters :=
  f ← when_present args "product_id" (int_step q "product_id") [];
  f ← when_present args "recommended_id" (int_step q "recommended_id") f;
  f ← when_present args "page" (int_step q "page") f;
  f ← when_present args "limit" (int_step q "limit") f;
  f ← when_present args "recommendation_type"
        (enum_step "recommendation_type" ["cross-sell"; "up-sell"; "accessory"]) f;
  f ← when_present args "status"
        (enum_step "status" ["active"; "expired"; "draft"]) f;
  f ← when_present args "sort_by" (pass_step "sort_by") f;
  when_present args "order" (pass_step "order") f.

(** The filter builder of [RecommendationCollection.get]:
    [args = recommendation_args.parse_args(); filters_from_args(args)]. *)
Definition build_filters (q : query) : M filters :=
  args ← parse_args q;
  filters_from_args args q.

Definition s0 : St := mkSt ∅ 0 [].

(** [filters[k] = v] when a value is given, nothing otherwise. *)
Definition opt_set (k : string) (o : option pyval) (f : filters) : filters :=
  match o with Some v => dict_set k v f | None => f end.

(** The parsed arguments the parser yields when it accepts a query. *)
Definition expected_args (q : query) : parsed_args :=
  map (fun kt => (kt.1, args_get kt.1 q ≫= convert kt.2)) recommendation_args.

(** The integer-typed, the string-typed and all keys of the filters dict. *)
Definition int_keys : list string := ["product_id"; "recommended_id"; "page"; "limit"].
Definition str_keys : list string := ["recommendation_type"; "status"; "sort_by"; "order"].
Definition filter_keys : list string := int_keys ++ str_keys.

(** What the filters dict holds under [k] after an accepted query. *)
Definition expected_get (k : string) (q : query) : option pyval :=
  if str_in k int_keys then args_get k q ≫= (fun v => VInt <$> py_int v)
  else if str_in k str_keys then VStr <$> args_get k q
  else None.

Definition enum_ok (opts : list string) (x : pyval) : bool :=
  match x with VStr v => str_in v opts | VInt _ => false end.

(** A computation that leaves rows and clock alone, whose result does not
    depend on the state, and which only appends to the log, only when it
    fails. *)
Definition log_only {A} (c : M A) : Prop :=
  exists r new,
    (forall s, c s = (r, mkSt s.(db) s.(clock) (s.(log) ++ new))) /\
    (forall x, r = inr x -> new = []).

End ListRoute.

(** [str(n)] for an integer: decimal digits, least significant first in
    [dec_rev], with a leading [-] for a negative number. *)
Fixpoint dec_rev (fuel : nat) (n : N) : list ascii :=
  match fuel with
  | O => []
  | S f => ascii_of_N (48 + n mod 10) ::
             (if (n <? 10)%N then [] else dec_rev f (n / 10))
  end.

Definition str_N (n : N) : string :=
  string_of_list_ascii (rev (dec_rev (S (N.to_nat (N.size n))) n)).

Definition py_str_int (n : Z) : string :=
  match n with
  | Zneg p => "-" ++ str_N (Npos p)
  | _ => str_N (Z.to_N n)
  end.

(** Every row's counters are non-negative. *)
Definition counters_nonneg (m : gmap Z Recommendation) : Prop :=
  forall k r, m !! k = Some r -> 0 <= r.(like) /\ 0 <= r.(dislike).

(** [n] successive like requests on the same id. *)
Fixpoint likes (n : nat) (rid : Z) (s : St) : St :=
  match n with
  | O => s
  | S n' => likes n' rid (snd (LikeResource_put rid s))
  end.

(** The keys of the filters dict, in insertion order. *)
Definition filter_order : list string :=
  ["product_id"; "recommended_id"; "page"; "limit";
   "recommendation_type"; "status"; "sort_by"; "order"].

(** A store holding one row, under key 1, with three likes. *)
Definition row1 : Recommendation :=
  mkRec 1 10 20 "cross-sell" "active" 3 0 5 5.
Definition st1 : St := mkSt {[1 := row1]} 7 [].

Example py_int_ex1 : py_int_latin1 " -1_000 " = Some (-1000).
Proof. reflexivity. Qed.
Example py_int_ex2 :
  py_int_latin1 "1__0" = None /\ py_int_latin1 "abc" = None /\ py_int_latin1 "" = None /\
  py_int_latin1 (String (ascii_of_nat 28) "5") = None /\
  py_int_latin1 (String (ascii_of_nat 160) "5") = Some 5.
Proof. repeat split; reflexivity. Qed.
Example build_ex1 :
  fst (build_filters (IP := cpython_int) [("product_id", "abc")] s0)
  = inl (InvalidParameter "Input payload validation failed").
Proof. reflexivity. Qed.
Example build_ex2 :
  fst (build_filters (IP := cpython_int) [("order", "zz"); ("status", "active"); ("page", "2")] s0)
  = inr [("page", VInt 2); ("status", VStr "active"); ("order", VStr "zz")].
Proof. reflexivity. Qed.

(* ------------------------------------------------------------------ *)
(** * Handler properties *)

Ltac run_handler :=
  unfold RecommendationResource_get, RecommendationResource_put,
    RecommendationResource_delete, LikeResource_put, DislikeResource_put,
    mbind, M_bind, mret, M_ret, emit, find, rec_update, rec_delete, abort;
  cbn [fst snd db clock log].

(** Claim C1: on a stored id, like (dislike) adds exactly 1 to the like
    (dislike) counter, writes the row back to the store and returns it with
    200; on an id with no row it fails with NotFound (404). *)
Theorem like_dislike_increment (s : St) (rid : Z) (Hwf : wf_db s.(db)) :
  match s.(db) !! rid with
  | Some r =>
      let rl := set_last_updated (set_like r (r.(like) + 1)) s.(clock) in
      let rd := set_last_updated (set_dislike r (r.(dislike) + 1)) s.(clock) in
      rl.(like) = r.(like) + 1 /\ rd.(dislike) = r.(dislike) + 1 /\
      fst (LikeResource_put rid s) = inr (200, serialize rl) /\
      (snd (LikeResource_put rid s)).(db) = <[rid := rl]> s.(db) /\
      fst (DislikeResource_put rid s) = inr (200, serialize rd) /\
      (snd (DislikeResource_put rid s)).(db) = <[rid := rd]> s.(db)
  | None =>
      (exists msg, fst (LikeResource_put rid s) = inl (NotFound msg)) /\
      (exists msg, fst (DislikeResource_put rid s) = inl (NotFound msg)) /\
      http_code (NotFound "") = 404
  end.
Proof.
  run_handler.
  destruct (db s !! rid) as [r|] eqn:E; cbn.
  - pose proof (Hwf _ _ E) as Hid.
    rewrite Hid. repeat split.
  - repeat split; eexists; reflexivity.
Qed.

Lemma deserialize_state (data : payload) (r : Recommendation) (s : St) :
  snd (deserialize data r s) = s.
Proof.
  unfold deserialize.
  repeat match goal with
  | |- context [match ?x with _ => _ end] => destruct x
  end; reflexivity.
Qed.

Lemma deserialize_result (data : payload) (r : Recommendation) (s s' : St) :
  fst (deserialize data r s) = fst (deserialize data r s').
Proof.
  unfold deserialize.
  repeat match goal with
  | |- context [match ?x with _ => _ end] => destruct x
  end; reflexivity.
Qed.

Lemma wf_st1 : wf_db st1.(db).
Proof.
  intros k r H. cbn in H.
  apply lookup_singleton_Some in H as [<- <-]. reflexivity.
Qed.

(** Claim C2: delete answers 204 for every id, removes the row when there
    is one and leaves the store unchanged when there is none. *)
Theorem delete_idempotent (s : St) (rid : Z) (Hwf : wf_db s.(db)) :
  fst (RecommendationResource_delete rid s) = inr (204, BEmpty) /\
  (snd (RecommendationResource_delete rid s)).(db) = delete rid s.(db) /\
  (s.(db) !! rid = None -> (snd (RecommendationResource_delete rid s)).(db) = s.(db)).
Proof.
  run_handler.
  destruct (db s !! rid) as [r|] eqn:E; cbn.
  - rewrite (Hwf _ _ E). repeat split. intros H; discriminate.
  - repeat split. 1: symmetry. all: intros; by apply delete_id.
Qed.

(** Claim C7: get answers the stored row with 200 when it exists, NotFound
    (404) otherwise; it does not touch the store. *)
Theorem get_by_id (s : St) (rid : Z) :
  (snd (RecommendationResource_get rid s)).(db) = s.(db) /\
  match s.(db) !! rid with
  | Some r => fst (RecommendationResource_get rid s) = inr (200, serialize r)
  | None => exists msg, fst (RecommendationResource_get rid s) = inl (NotFound msg)
  end.
Proof.
  run_handler.
  destruct (db s !! rid) as [r|] eqn:E; cbn; split; eauto.
Qed.

(** Claim C8: like changes only [like] and dislike only [dislike] of the
    row (besides the store-set [last_updated]); every other row is kept. *)
Theorem like_dislike_frame (s : St) (rid : Z) (r : Recommendation)
  (Hwf : wf_db s.(db)) (Hr : s.(db) !! rid = Some r) :
  (exists r', (snd (LikeResource_put rid s)).(db) !! rid = Some r' /\
     r'.(id) = r.(id) /\ r'.(product_id) = r.(product_id) /\
     r'.(recommended_id) = r.(recommended_id) /\
     r'.(recommendation_type) = r.(recommendation_type) /\
     r'.(status) = r.(status) /\ r'.(dislike) = r.(dislike) /\
     r'.(created_at) = r.(created_at)) /\
  (exists r', (snd (DislikeResource_put rid s)).(db) !! rid = Some r' /\
     r'.(id) = r.(id) /\ r'.(product_id) = r.(product_id) /\
     r'.(recommended_id) = r.(recommended_id) /\
     r'.(recommendation_type) = r.(recommendation_type) /\
     r'.(status) = r.(status) /\ r'.(like) = r.(like) /\
     r'.(created_at) = r.(created_at)) /\
  (forall k, k <> rid ->
     (snd (LikeResource_put rid s)).(db) !! k = s.(db) !! k /\
     (snd (DislikeResource_put rid s)).(db) !! k = s.(db) !! k).
Proof.
  pose proof (Hwf _ _ Hr) as Hid. destruct r; cbn in Hid; subst rid.
  run_handler. rewrite Hr. cbn.
  split; [|split].
  - eexists. rewrite lookup_insert_eq. split; [reflexivity|]. cbn. tauto.
  - eexists. rewrite lookup_insert_eq. split; [reflexivity|]. cbn. tauto.
  - intros k Hk. split; apply lookup_insert_ne; congruence.
Qed.

(** Claim C10: whenever get, update, like or dislike fails with NotFound,
    the store (rows and clock) is the one before the request. *)
Theorem notfound_atomic (s : St) (rid : Z) (data : payload) :
  (forall msg, fst (RecommendationResource_get rid s) = inl (NotFound msg) ->
     (snd (RecommendationResource_get rid s)).(db) = s.(db) /\
     (snd (RecommendationResource_get rid s)).(clock) = s.(clock)) /\
  (forall msg, fst (RecommendationResource_put rid data s) = inl (NotFound msg) ->
     (snd (RecommendationResource_put rid data s)).(db) = s.(db) /\
     (snd (RecommendationResource_put rid data s)).(clock) = s.(clock)) /\
  (forall msg, fst (LikeResource_put rid s) = inl (NotFound msg) ->
     (snd (LikeResource_put rid s)).(db) = s.(db) /\
     (snd (LikeResource_put rid s)).(clock) = s.(clock)) /\
  (forall msg, fst (DislikeResource_put rid s) = inl (NotFound msg) ->
     (snd (DislikeResource_put rid s)).(db) = s.(db) /\
     (snd (DislikeResource_put rid s)).(clock) = s.(clock)).
Proof.
  run_handler.
  destruct (db s !! rid) as [r|] eqn:E; cbn.
  - repeat split; try discriminate;
      match goal with
      | H : context [deserialize ?d ?r ?st] |- _ =>
          pose proof (deserialize_state d r st) as Hst;
          destruct (deserialize d r st) as [[e|x] s'];
          cbn in *; subst s'; try discriminate; reflexivity
      end.
  - repeat split.
Qed.

(** Claim C6 (as corrected): on an id with no row, update fails with
    NotFound (404) whatever the payload.  On a stored id, a well-formed
    payload (integer [product_id] and [recommended_id], enumerated
    [recommendation_type] and [status]; [like] and [dislike] each either
    absent, then 0, or a non-negative integer; any further keys, an [id]
    among them, are ignored, in any order) replaces the mutable fields, the
    row keeps the id of the path, is written back under it and is returned
    with 200; a payload that deserialization rejects fails with
    InvalidParameter (400) and leaves the store unchanged. *)
Theorem update_replaces (s : St) (rid : Z) :
  (s.(db) !! rid = None -> forall data,
     (exists msg, fst (RecommendationResource_put rid data s) = inl (NotFound msg)) /\
     (snd (RecommendationResource_put rid data s)).(db) = s.(db)) /\
  (forall r, s.(db) !! rid = Some r ->
     (forall data p q t st l d,
        jget "product_id" data = Some (JInt p) ->
        jget "recommended_id" data = Some (JInt q) ->
        jget "recommendation_type" data = Some (JStr t) ->
        jget "status" data = Some (JStr st) ->
        str_in t rec_types = true -> str_in st rec_statuses = true ->
        (jget "like" data = None /\ l = 0 \/ jget "like" data = Some (JInt l) /\ 0 <= l) ->
        (jget "dislike" data = None /\ d = 0 \/ jget "dislike" data = Some (JInt d) /\ 0 <= d) ->
        let r' := mkRec rid p q t st l d r.(created_at) s.(clock) in
        fst (RecommendationResource_put rid data s) = inr (200, serialize r') /\
        (snd (RecommendationResource_put rid data s)).(db) = <[rid := r']> s.(db)) /\
     (forall data e, fst (deserialize data r s) = inl e ->
        fst (RecommendationResource_put rid data s) = inl e /\ http_code e = 400 /\
        (snd (RecommendationResource_put rid data s)).(db) = s.(db))).
Proof.
  split.
  - intros Hn data. run_handler. rewrite Hn. cbn. eauto.
  - intros r Hr. split.
    + intros data p q t st l d Hp Hq Ht Hs Htin Hsin Hl Hd r'.
      run_handler. rewrite Hr. cbn -[str_in jget].
      unfold deserialize. cbv beta zeta.
      rewrite Hp, Hq, Ht, Hs.
      destruct Hl as [[-> ->]|[-> Hl]], Hd as [[-> ->]|[-> Hd]];
        rewrite ?(proj2 (Z.leb_le 0 l) Hl), ?(proj2 (Z.leb_le 0 d) Hd);
        cbn -[str_in]; rewrite Htin, Hsin; cbn; split; reflexivity.
    + intros data e He. run_handler. rewrite Hr. cbn.
      set (s1 := mkSt _ _ _).
      pose proof (deserialize_state data r s1) as Hst.
      pose proof (deserialize_result data r s s1) as Hres.
      destruct (deserialize data r s1) as [[e'|x] s'] eqn:D;
        cbn in *; subst s'; rewrite He in Hres; [|discriminate].
      injection Hres as <-. split; [reflexivity|]. split; [|reflexivity].
      revert He. unfold deserialize.
      repeat match goal with
      | |- context [match ?x with _ => _ end] => destruct x
      end; cbn; intros H; try discriminate; injection H as <-; reflexivity.
Qed.

(* ------------------------------------------------------------------ *)
(** * The filter builder, for any [int()] *)

Section BuilderProofs.
Context {IP : IntParser}.


Lemma args_get_head (k : string) (q : query) :
  args_get k q = head (args_getlist k q).
Proof.
  induction q as [|[k' v] q IH]; [reflexivity|].
  unfold args_getlist in *. cbn.
  destruct (String.eqb k k'); cbn; auto.
Qed.

Lemma mapM_option_None {A B} (f : A -> option B) (l : list A) :
  mapM f l = None -> exists x, In x l /\ f x = None.
Proof.
  induction l as [|x l IH]; cbn; [discriminate|].
  destruct (f x) eqn:Ef; cbn; [|eauto].
  destruct (mapM f l) eqn:Em; cbn; [discriminate|].
  intros _. destruct IH as (y & Hy & Hfy); eauto.
Qed.

Lemma mapM_convert_str (vs : list string) :
  mapM (convert TStr) vs = Some (map VStr vs).
Proof. induction vs as [|v vs IH]; cbn; [reflexivity|]. by rewrite IH. Qed.

Lemma view_absent (k : string) (t : arg_type) (q : query) :
  argument_parse_values k t q = Some None <-> args_get k q = None.
Proof.
  rewrite args_get_head. unfold argument_parse_values.
  destruct (args_getlist k q) as [|v vs]; cbn; [tauto|].
  split; [|discriminate].
  repeat case_match; intros ?; discriminate.
Qed.

Lemma view_present (k : string) (t : arg_type) (q : query) (x : pyval) :
  argument_parse_values k t q = Some (Some x) ->
  exists v, args_get k q = Some v /\ convert t v = Some x.
Proof.
  rewrite args_get_head. unfold argument_parse_values.
  destruct (args_getlist k q) as [|v vs]; cbn; [discriminate|].
  intros H. exists v. split; [reflexivity|].
  destruct (convert t v) eqn:Ec; cbn in H; [|discriminate].
  repeat case_match; simplify_eq.
  destruct (mapM (convert t) vs); cbn in *; [|discriminate]. injection H0 as -> _. reflexivity.
Qed.

Lemma view_bad (k : string) (t : arg_type) (q : query) (v : string) :
  args_get k q = Some v -> convert t v = None -> argument_parse_values k t q = None.
Proof.
  rewrite args_get_head. unfold argument_parse_values.
  destruct (args_getlist k q) as [|v' vs]; cbn; [discriminate|].
  intros [= <-] Hc. by rewrite Hc.
Qed.

Lemma view_fail (k : string) (t : arg_type) (q : query) :
  argument_parse_values k t q = None ->
  exists v, In v (args_getlist k q) /\ convert t v = None.
Proof.
  unfold argument_parse_values.
  destruct (args_getlist k q) as [|v vs]; [discriminate|].
  destruct (mapM (convert t) (v :: vs)) as [[|x xs]|] eqn:Em; try discriminate.
  - cbn in Em. destruct (convert t v); cbn in Em;
      [destruct (mapM (convert t) vs); discriminate | discriminate].
  - intros _. by apply mapM_option_None.
Qed.

Lemma view_str_total (k : string) (q : query) :
  argument_parse_values k TStr q <> None.
Proof.
  unfold argument_parse_values.
  destruct (args_getlist k q) as [|v vs]; [discriminate|].
  rewrite mapM_convert_str. discriminate.
Qed.

Lemma parse_int_param_ok (q : query) (k : string) (x : pyval) :
  argument_parse_values k TInt q = Some (Some x) ->
  exists n, x = VInt n /\ forall s, parse_int_param q k s = (inr n, s).
Proof.
  intros H. destruct (view_present _ _ _ _ H) as (v & Hg & Hc).
  cbn in Hc. destruct (py_int v) as [n|] eqn:Hp; cbn in Hc; [|discriminate].
  injection Hc as <-. exists n. split; [reflexivity|].
  intros s. unfold parse_int_param. rewrite Hg. cbn. by rewrite Hp.
Qed.

Lemma view_some (k : string) (t : arg_type) (q : query) (o : option pyval) :
  argument_parse_values k t q = Some o -> o = args_get k q ≫= convert t.
Proof.
  destruct o as [x|]; intros H.
  - destruct (view_present _ _ _ _ H) as (v & -> & Hc). cbn. by rewrite Hc.
  - apply view_absent in H. by rewrite H.
Qed.

(** Running a bind that succeeded, or failed. *)
Lemma bind_inr {A B} (c : M A) (g : A -> M B) (s s' : St) (r : B) :
  (c ≫= g) s = (inr r, s') -> exists x s1, c s = (inr x, s1) /\ g x s1 = (inr r, s').
Proof.
  unfold mbind, M_bind. destruct (c s) as [[e|x] s1]; [discriminate|eauto].
Qed.

Lemma bind_inl {A B} (c : M A) (g : A -> M B) (s s' : St) (e : err) :
  (c ≫= g) s = (inl e, s') ->
  c s = (inl e, s') \/ exists x s1, c s = (inr x, s1) /\ g x s1 = (inl e, s').
Proof.
  unfold mbind, M_bind. destruct (c s) as [[e'|x] s1]; [|eauto].
  intros [= -> ->]. by left.
Qed.

Lemma argument_parse_run (k : string) (t : arg_type) (q : query) (s : St) :
  argument_parse k t q s =
  (match argument_parse_values k t q with
   | Some v => inr v
   | None => inl (InvalidParameter "Input payload validation failed")
   end, s).
Proof. unfold argument_parse. by destruct (argument_parse_values k t q). Qed.

Lemma parse_from_ok (spec : list (string * arg_type)) (q : query) (s s' : St)
  (a : parsed_args) :
  parse_args_from spec q s = (inr a, s') ->
  s' = s /\ Forall2 (fun kt kv => kv.1 = kt.1 /\
                        argument_parse_values kt.1 kt.2 q = Some kv.2) spec a.
Proof.
  revert s s' a. induction spec as [|[k t] spec IH]; intros s s' a H.
  - cbn in H. injection H as <- <-. auto.
  - cbn in H. apply bind_inr in H as (v & s1 & H1 & H2).
    rewrite argument_parse_run in H1.
    destruct (argument_parse_values k t q) as [o|] eqn:Ev; [|discriminate].
    injection H1 as <- <-.
    apply bind_inr in H2 as (vs & s2 & H2 & H3).
    apply IH in H2 as [-> Hf]. injection H3 as <- <-. auto.
Qed.

Lemma parse_from_err (spec : list (string * arg_type)) (q : query) (s s' : St)
  (e : err) :
  parse_args_from spec q s = (inl e, s') ->
  e = InvalidParameter "Input payload validation failed" /\ s' = s /\
  exists k t, In (k, t) spec /\ argument_parse_values k t q = None.
Proof.
  revert s s' e. induction spec as [|[k t] spec IH]; intros s s' e H.
  - discriminate.
  - cbn in H. apply bind_inl in H as [H1|(v & s1 & H1 & H2)].
    + rewrite argument_parse_run in H1.
      destruct (argument_parse_values k t q) eqn:Ev; [discriminate|].
      injection H1 as <- <-. split; [done|]. split; [done|].
      exists k, t. split; [left|]; done.
    + rewrite argument_parse_run in H1.
      destruct (argument_parse_values k t q); [|discriminate].
      injection H1 as <- <-.
      apply bind_inl in H2 as [H2|(vs & s2 & H2 & H3)]; [|discriminate].
      apply IH in H2 as (-> & -> & k' & t' & Hin & Hn).
      split; [done|]. split; [done|]. exists k', t'. split; [right|]; done.
Qed.

Lemma parse_from_fail (spec : list (string * arg_type)) (q : query) (s : St)
  (k : string) (t : arg_type) :
  In (k, t) spec -> argument_parse_values k t q = None ->
  parse_args_from spec q s =
  (inl (InvalidParameter "Input payload validation failed"), s).
Proof.
  intros Hin Hn. induction spec as [|[k' t'] spec IH]; [destruct Hin|].
  cbn. unfold mbind at 1, M_bind at 1. rewrite argument_parse_run.
  destruct (argument_parse_values k' t' q) eqn:Ev.
  - destruct Hin as [[= -> ->]|Hin]; [congruence|].
    unfold mbind, M_bind. by rewrite IH.
  - reflexivity.
Qed.

Lemma parse_args_ok (q : query) (s s' : St) (a : parsed_args) :
  parse_args q s = (inr a, s') -> s' = s /\ a = expected_args q.
Proof.
  intros H. apply parse_from_ok in H as [-> Hf]. split; [done|].
  unfold expected_args. induction Hf as [|[k t] [k' o] spec a [Hk Hv] Hf IH];
    [done|].
  cbn in *. subst k'. apply view_some in Hv. by rewrite Hv, IH.
Qed.

Lemma dict_get_set (k k' : string) (v : pyval) (f : filters) :
  dict_get k (dict_set k' v f) = if String.eqb k k' then Some v else dict_get k f.
Proof.
  induction f as [|[k'' v''] f IH]; cbn.
  - reflexivity.
  - destruct (String.eqb_spec k' k'') as [<-|Hne]; cbn.
    + by destruct (String.eqb k k').
    + rewrite IH. destruct (String.eqb_spec k k'') as [->|]; [|done].
      destruct (String.eqb_spec k'' k') as [->|]; [congruence|done].
Qed.

Lemma dict_get_opt_set (k k' : string) (o : option pyval) (f : filters) :
  dict_get k (opt_set k' o f) =
  if String.eqb k k' then match o with Some v => Some v | None => dict_get k f end
  else dict_get k f.
Proof.
  destruct o as [v|]; cbn; [apply dict_get_set|]. by destruct (String.eqb k k').
Qed.

Lemma when_int_ok (a : parsed_args) (q : query) (k : string) (f0 f' : filters)
  (s s' : St) :
  when_present a k (int_step q k) f0 s = (inr f', s') ->
  f' = opt_set k (match arg_lookup k a with
                  | Some (Some _) => VInt <$> (args_get k q ≫= py_int)
                  | _ => None end) f0.
Proof.
  unfold when_present, int_step, parse_int_param.
  destruct (arg_lookup k a) as [[x|]|]; cbn; try (intros [= <- _]; done).
  destruct (args_get k q ≫= py_int); cbn; [by intros [= <- _]|discriminate].
Qed.

Lemma when_int_err (a : parsed_args) (q : query) (k : string) (f0 : filters)
  (s s' : St) (e : err) :
  when_present a k (int_step q k) f0 s = (inl e, s') ->
  (exists x, arg_lookup k a = Some (Some x)) /\ args_get k q ≫= py_int = None /\
  exists msg, e = InvalidParameter msg.
Proof.
  unfold when_present, int_step, parse_int_param.
  destruct (arg_lookup k a) as [[x|]|]; cbn; try discriminate.
  destruct (args_get k q ≫= py_int); cbn; [discriminate|].
  intros [= <- _]. eauto.
Qed.

Lemma when_enum_ok (a : parsed_args) (k : string) (opts : list string)
  (f0 f' : filters) (s s' : St) :
  when_present a k (enum_step k opts) f0 s = (inr f', s') ->
  f' = opt_set k (match arg_lookup k a with Some o => o | None => None end) f0 /\
  forall x, arg_lookup k a = Some (Some x) -> enum_ok opts x = true.
Proof.
  unfold when_present, enum_step, validate_enum_param.
  destruct (arg_lookup k a) as [[x|]|]; cbn.
  - destruct (enum_ok opts x) eqn:Ex; unfold enum_ok in Ex; rewrite Ex; cbn;
      [|discriminate].
    intros [= <- _]. split; [done|]. by intros ? [= <-].
  - intros [= <- _]. split; [done|]. discriminate.
  - intros [= <- _]. split; [done|]. discriminate.
Qed.

Lemma when_enum_err (a : parsed_args) (k : string) (opts : list string)
  (f0 : filters) (s s' : St) (e : err) :
  when_present a k (enum_step k opts) f0 s = (inl e, s') ->
  (exists x, arg_lookup k a = Some (Some x) /\ enum_ok opts x = false) /\
  exists msg, e = InvalidParameter msg.
Proof.
  unfold when_present, enum_step, validate_enum_param.
  destruct (arg_lookup k a) as [[x|]|]; cbn; try discriminate.
  destruct (enum_ok opts x) eqn:Ex; unfold enum_ok in Ex; rewrite Ex; cbn;
    [discriminate|].
  intros [= <- _]. eauto.
Qed.

Lemma when_pass_ok (a : parsed_args) (k : string) (f0 f' : filters) (s s' : St) :
  when_present a k (pass_step k) f0 s = (inr f', s') ->
  f' = opt_set k (match arg_lookup k a with Some o => o | None => None end) f0.
Proof.
  unfold when_present, pass_step.
  destruct (arg_lookup k a) as [[x|]|]; cbn; by intros [= <- _].
Qed.

Lemma when_pass_err (a : parsed_args) (k : string) (f0 : filters) (s s' : St)
  (e : err) :
  when_present a k (pass_step k) f0 s = (inl e, s') -> False.
Proof.
  unfold when_present, pass_step. by destruct (arg_lookup k a) as [[x|]|].
Qed.

Lemma parse_args_int_ok (q : query) (s s' : St) (a : parsed_args) (k v : string) :
  parse_args q s = (inr a, s') -> In k int_keys -> args_get k q = Some v ->
  py_int v <> None.
Proof.
  intros Hp Hk Hg Hn.
  assert (Hb : argument_parse_values k TInt q = None)
    by (apply (view_bad _ _ _ v Hg); cbn; by rewrite Hn).
  assert (Hin : In (k, TInt) recommendation_args)
    by (cbn in Hk |- *; intuition congruence).
  unfold parse_args in Hp. rewrite (parse_from_fail _ _ s _ _ Hin Hb) in Hp.
  discriminate.
Qed.

(** What an accepted query yields: the filters dict holds [expected_get]
    under every key, and the validated parameters were valid. *)
Lemma build_filters_ok (q : query) (s : St) (f : filters) :
  fst (build_filters q s) = inr f ->
  (forall k, dict_get k f = expected_get k q) /\
  (forall v, args_get "recommendation_type" q = Some v -> str_in v rec_types = true) /\
  (forall v, args_get "status" q = Some v -> str_in v rec_statuses = true) /\
  (forall k v, In k int_keys -> args_get k q = Some v -> py_int v <> None).
Proof.
  intros H. destruct (build_filters q s) as [r s'] eqn:B. cbn in H. subst r.
  unfold build_filters in B. apply bind_inr in B as (a & s1 & Hp & Hf).
  pose proof Hp as Hp'. apply parse_args_ok in Hp as [-> ->].
  unfold filters_from_args in Hf.
  apply bind_inr in Hf as (f1 & s2 & H1 & Hf).
  apply bind_inr in Hf as (f2 & s3 & H2 & Hf).
  apply bind_inr in Hf as (f3 & s4 & H3 & Hf).
  apply bind_inr in Hf as (f4 & s5 & H4 & Hf).
  apply bind_inr in Hf as (f5 & s6 & H5 & Hf).
  apply bind_inr in Hf as (f6 & s7 & H6 & Hf).
  apply bind_inr in Hf as (f7 & s8 & H7 & H8).
  apply when_int_ok in H1, H2, H3, H4.
  apply when_enum_ok in H5 as [H5 V5]. apply when_enum_ok in H6 as [H6 V6].
  apply when_pass_ok in H7, H8.
  cbn -[args_get py_int convert] in H1, H2, H3, H4, H5, H6, H7, H8, V5, V6.
  subst f1 f2 f3 f4 f5 f6 f7 f.
  split; [|split; [|split]].
  - intros k. rewrite !dict_get_opt_set. unfold expected_get.
    repeat match goal with
    | |- context [String.eqb k ?lit] =>
        destruct (String.eqb_spec k lit) as [->|?]; cbn -[args_get py_int convert]
    end;
    try (match goal with |- context [args_get ?lit q] =>
           destruct (args_get lit q) as [v|]; cbn; [destruct (py_int v)|]; reflexivity
         end).
    all: congruence.
  - intros v Hg. apply (V5 (VStr v)). by rewrite Hg.
  - intros v Hg. apply (V6 (VStr v)). by rewrite Hg.
  - intros k v. apply (parse_args_int_ok q s s (expected_args q) k v Hp').
Qed.

Lemma int_step_expected (q : query) (k : string) (f0 : filters) (s s' : St) (e : err) :
  In k int_keys ->
  when_present (expected_args q) k (int_step q k) f0 s = (inl e, s') -> False.
Proof.
  intros Hk H. apply when_int_err in H as ((x & Hl) & Hn & _).
  cbn in Hk. decompose [or] Hk; try contradiction; subst k;
    cbn -[args_get py_int] in Hl; injection Hl as Hl;
    destruct (args_get _ q) as [v|]; cbn in Hl, Hn; try discriminate;
    destruct (py_int v); discriminate.
Qed.

Lemma enum_step_expected (q : query) (k : string) (opts : list string)
  (f0 : filters) (s s' : St) (e : err) :
  In k str_keys ->
  when_present (expected_args q) k (enum_step k opts) f0 s = (inl e, s') ->
  (exists v, args_get k q = Some v /\ str_in v opts = false) /\
  exists msg, e = InvalidParameter msg.
Proof.
  intros Hk H. apply when_enum_err in H as ((x & Hl & Hx) & He). split; [|done].
  cbn in Hk. decompose [or] Hk; try contradiction; subst k;
    cbn -[args_get] in Hl; injection Hl as Hl;
    destruct (args_get _ q) as [v|]; cbn in Hl; try discriminate;
    injection Hl as <-; eauto.
Qed.

(** Why a query is refused: an integer parameter has a value that does not
    parse, or an enumerated parameter is out of its set; the error is an
    InvalidParameter. *)
Lemma build_filters_err (q : query) (s : St) (e : err) :
  fst (build_filters q s) = inl e ->
  (exists msg, e = InvalidParameter msg) /\
  ((exists k v, In k int_keys /\ In v (args_getlist k q) /\ py_int v = None) \/
   (exists v, args_get "recommendation_type" q = Some v /\ str_in v rec_types = false) \/
   (exists v, args_get "status" q = Some v /\ str_in v rec_statuses = false)).
Proof.
  intros H. destruct (build_filters q s) as [r s'] eqn:B. cbn in H. subst r.
  unfold build_filters in B. apply bind_inl in B as [Hp|(a & s1 & Hp & Hf)].
  - apply parse_from_err in Hp as (-> & _ & k & t & Hin & Hn).
    split; [eauto|]. left.
    apply view_fail in Hn as (v & Hv & Hc).
    destruct t; cbn in Hc; [|discriminate].
    exists k, v. split; [|split; [done|]].
    + cbn in Hin |- *. decompose [or] Hin; simplify_eq; tauto.
    + by destruct (py_int v).
  - apply parse_args_ok in Hp as [-> ->]. unfold filters_from_args in Hf.
    apply bind_inl in Hf as [Hs|(f1 & s2 & _ & Hf)];
      [exfalso; refine (int_step_expected _ _ _ _ _ _ _ Hs); cbn; tauto|].
    apply bind_inl in Hf as [Hs|(f2 & s3 & _ & Hf)];
      [exfalso; refine (int_step_expected _ _ _ _ _ _ _ Hs); cbn; tauto|].
    apply bind_inl in Hf as [Hs|(f3 & s4 & _ & Hf)];
      [exfalso; refine (int_step_expected _ _ _ _ _ _ _ Hs); cbn; tauto|].
    apply bind_inl in Hf as [Hs|(f4 & s5 & _ & Hf)];
      [exfalso; refine (int_step_expected _ _ _ _ _ _ _ Hs); cbn; tauto|].
    apply bind_inl in Hf as [Hs|(f5 & s6 & _ & Hf)].
    { apply enum_step_expected in Hs as [Hv He]; [|cbn; tauto].
      split; [done|]. right. left. exact Hv. }
    apply bind_inl in Hf as [Hs|(f6 & s7 & _ & Hf)].
    { apply enum_step_expected in Hs as [Hv He]; [|cbn; tauto].
      split; [done|]. right. right. exact Hv. }
    apply bind_inl in Hf as [Hs|(f7 & s8 & _ & Hf)];
      [exfalso; exact (when_pass_err _ _ _ _ _ _ Hs)|].
    exfalso; exact (when_pass_err _ _ _ _ _ _ Hf).
Qed.

Lemma str_in_In (v : string) (l : list string) : str_in v l = true <-> In v l.
Proof.
  unfold str_in. rewrite existsb_exists. split.
  - intros (x & Hx & He). apply String.eqb_eq in He. by subst.
  - intros Hv. exists v. split; [done|]. apply String.eqb_refl.
Qed.

(** Claim C3: a present [product_id], [recommended_id], [page] or [limit]
    whose value is not an integer makes the filter builder fail with
    InvalidParameter (HTTP 400); when the builder accepts the query, each of
    them that is present is mapped to the integer its value parses to. *)
Theorem filters_int_params (q : query) (s : St) :
  (forall k v, In k int_keys -> args_get k q = Some v -> py_int v = None ->
     exists msg, fst (build_filters q s) = inl (InvalidParameter msg) /\
                 http_code (InvalidParameter msg) = 400) /\
  (forall f k v n, fst (build_filters q s) = inr f -> In k int_keys ->
     args_get k q = Some v -> py_int v = Some n -> dict_get k f = Some (VInt n)).
Proof.
  split.
  - intros k v Hk Hg Hn. destruct (fst (build_filters q s)) as [e|f] eqn:R.
    + apply build_filters_err in R as [[msg ->] _]. eauto.
    + apply build_filters_ok in R as (_ & _ & _ & Hi).
      exfalso. exact (Hi k v Hk Hg Hn).
  - intros f k v n R Hk Hg Hn. apply build_filters_ok in R as (Hd & _).
    rewrite Hd. unfold expected_get. apply str_in_In in Hk. rewrite Hk, Hg.
    cbn. by rewrite Hn.
Qed.

(** Claim C4: a present [recommendation_type] outside {cross-sell, up-sell,
    accessory}, or a present [status] outside {active, expired, draft},
    makes the filter builder fail with InvalidParameter (HTTP 400); when the
    builder accepts the query, a present one is put in the filters as the
    string given. *)
Theorem filters_enum_params (q : query) (s : St) :
  (forall v, args_get "recommendation_type" q = Some v -> str_in v rec_types = false ->
     exists msg, fst (build_filters q s) = inl (InvalidParameter msg) /\
                 http_code (InvalidParameter msg) = 400) /\
  (forall v, args_get "status" q = Some v -> str_in v rec_statuses = false ->
     exists msg, fst (build_filters q s) = inl (InvalidParameter msg) /\
                 http_code (InvalidParameter msg) = 400) /\
  (forall f v, fst (build_filters q s) = inr f ->
     args_get "recommendation_type" q = Some v ->
     dict_get "recommendation_type" f = Some (VStr v)) /\
  (forall f v, fst (build_filters q s) = inr f ->
     args_get "status" q = Some v -> dict_get "status" f = Some (VStr v)).
Proof.
  split; [|split; [|split]].
  - intros v Hg Hn. destruct (fst (build_filters q s)) as [e|f] eqn:R.
    + apply build_filters_err in R as [[msg ->] _]. eauto.
    + apply build_filters_ok in R as (_ & Ht & _). by rewrite (Ht v Hg) in Hn.
  - intros v Hg Hn. destruct (fst (build_filters q s)) as [e|f] eqn:R.
    + apply build_filters_err in R as [[msg ->] _]. eauto.
    + apply build_filters_ok in R as (_ & _ & Hs & _). by rewrite (Hs v Hg) in Hn.
  - intros f v R Hg. apply build_filters_ok in R as (Hd & _).
    rewrite Hd. unfold expected_get. cbn -[args_get]. by rewrite Hg.
  - intros f v R Hg. apply build_filters_ok in R as (Hd & _).
    rewrite Hd. unfold expected_get. cbn -[args_get]. by rewrite Hg.
Qed.

(** Claim C5: the empty query gives the empty filters; an accepted query
    gives filters with a key exactly for each of the eight parameters that
    is present and no other key, [sort_by] and [order] holding the string
    given; and a refusal always comes from an integer or enumerated
    parameter, never from [sort_by] or [order]. *)
Theorem filters_keys (q : query) (s : St) :
  fst (build_filters [] s) = inr [] /\
  (forall f, fst (build_filters q s) = inr f ->
     (forall k, In k filter_keys -> (is_Some (dict_get k f) <-> is_Some (args_get k q))) /\
     (forall k, ~ In k filter_keys -> dict_get k f = None) /\
     (forall v, args_get "sort_by" q = Some v -> dict_get "sort_by" f = Some (VStr v)) /\
     (forall v, args_get "order" q = Some v -> dict_get "order" f = Some (VStr v))) /\
  (forall e, fst (build_filters q s) = inl e ->
     (exists k v, In k int_keys /\ In v (args_getlist k q) /\ py_int v = None) \/
     (exists v, args_get "recommendation_type" q = Some v /\ str_in v rec_types = false) \/
     (exists v, args_get "status" q = Some v /\ str_in v rec_statuses = false)).
Proof.
  split; [reflexivity|split].
  - intros f R. apply build_filters_ok in R as (Hd & _ & _ & Hi).
    split; [|split; [|split]].
    + intros k Hk. rewrite Hd. unfold expected_get.
      destruct (str_in k int_keys) eqn:Ei.
      * apply str_in_In in Ei.
        destruct (args_get k q) as [v|] eqn:Hg; cbn;
          [|split; intros [? Hx]; discriminate].
        destruct (py_int v) eqn:Hp; cbn; [split; eauto|].
        exfalso. exact (Hi k v Ei Hg Hp).
      * assert (Hs : str_in k str_keys = true).
        { apply str_in_In. apply in_app_or in Hk as [Hk|Hk]; [|done].
          apply str_in_In in Hk. congruence. }
        rewrite Hs. destruct (args_get k q); cbn; split; intros [? Hx]; try discriminate; eauto.
    + intros k Hk. rewrite Hd. unfold expected_get.
      destruct (str_in k int_keys) eqn:Ei.
      { apply str_in_In in Ei. exfalso. apply Hk, in_or_app. by left. }
      destruct (str_in k str_keys) eqn:Es; [|done].
      apply str_in_In in Es. exfalso. apply Hk, in_or_app. by right.
    + intros v Hg. rewrite Hd. unfold expected_get. cbn -[args_get]. by rewrite Hg.
    + intros v Hg. rewrite Hd. unfold expected_get. cbn -[args_get]. by rewrite Hg.
  - intros e R. by apply build_filters_err in R as [_ He].
Qed.

Lemma log_only_ret {A} (x : A) : log_only (mret x).
Proof. exists (inr x), []. split; [|done]. intros [d c l]. by rewrite app_nil_r. Qed.

Lemma log_only_abort {A} (e : err) : log_only (abort (A:=A) e).
Proof. exists (inl e), []. split; [|done]. intros [d c l]. by rewrite app_nil_r. Qed.

Lemma log_only_emit_abort {A} (m : log_entry) (e : err) :
  log_only (emit m;; abort (A:=A) e).
Proof. exists (inl e), [m]. split; [|done]. intros [d c l]. reflexivity. Qed.

Lemma log_only_bind {A B} (c : M A) (g : A -> M B) :
  log_only c -> (forall x, log_only (g x)) -> log_only (c ≫= g).
Proof.
  intros (r & new & Hc & Hn) Hg. destruct r as [e|x].
  - exists (inl e), new. split; [|done].
    intros s. unfold mbind, M_bind. by rewrite Hc.
  - destruct (Hg x) as (r2 & new2 & Hc2 & Hn2).
    exists r2, (new ++ new2). split.
    + intros s. unfold mbind, M_bind. rewrite Hc, Hc2. cbn.
      by rewrite app_assoc.
    + intros y Hy. by rewrite (Hn x eq_refl), (Hn2 y Hy).
Qed.

Lemma log_only_parse_args (q : query) : log_only (parse_args q).
Proof.
  unfold parse_args. induction recommendation_args as [|[k t] spec IH]; cbn.
  - apply log_only_ret.
  - apply log_only_bind.
    + unfold argument_parse. destruct (argument_parse_values k t q);
        [apply log_only_ret|apply log_only_abort].
    + intros v. apply log_only_bind; [done|]. intros vs. apply log_only_ret.
Qed.

Lemma log_only_when (a : parsed_args) (k : string)
  (step : pyval -> filters -> M filters) (f : filters) :
  (forall v f, log_only (step v f)) -> log_only (when_present a k step f).
Proof.
  intros Hs. unfold when_present.
  destruct (arg_lookup k a) as [[v|]|]; [apply Hs|apply log_only_ret..].
Qed.

Lemma log_only_int_step (q : query) (k : string) (v : pyval) (f : filters) :
  log_only (int_step q k v f).
Proof.
  unfold int_step. apply log_only_bind; [|intros; apply log_only_ret].
  unfold parse_int_param. destruct (args_get k q ≫= py_int);
    [apply log_only_ret|apply log_only_emit_abort].
Qed.

Lemma log_only_enum_step (k : string) (opts : list string) (v : pyval) (f : filters) :
  log_only (enum_step k opts v f).
Proof.
  unfold enum_step. apply log_only_bind; [|intros; apply log_only_ret].
  unfold validate_enum_param.
  destruct (match v with VStr s => str_in s opts | VInt _ => false end);
    [apply log_only_ret|apply log_only_emit_abort].
Qed.

(** Claim C9 (as corrected): the filter builder is a function of the query
    parameters alone: its result (filters or error) is the same whatever
    the state it runs in, it never touches the store (rows and clock), and
    its only effect is appending records to the application log, which it
    does only when it raises. *)
Theorem filters_deterministic (q : query) :
  exists (r : err + filters) (new : list log_entry),
    (forall s, build_filters q s = (r, mkSt s.(db) s.(clock) (s.(log) ++ new))) /\
    (forall f, r = inr f -> new = []).
Proof.
  unfold build_filters. apply log_only_bind; [apply log_only_parse_args|].
  intros a. unfold filters_from_args.
  repeat (apply log_only_bind; [apply log_only_when; intros;
    first [apply log_only_int_step|apply log_only_enum_step|apply log_only_ret]|intros]).
  apply log_only_when. intros. apply log_only_ret.
Qed.

End BuilderProofs.

(** Claim C9, counterexample: refusing [status=bogus] writes an error
    record to the application log, so the builder is not free of side
    effects. *)
Lemma filters_log_side_effect :
  build_filters (IP := cpython_int) [("status", "bogus")] s0 =
  (inl (InvalidParameter "Invalid status: must be one of ['active', 'expired', 'draft']"),
   mkSt ∅ 0 [LogError "Invalid status"]).
Proof. reflexivity. Qed.

(** Claim C6, counterexample: updating the stored row 1 with an empty
    payload does not answer 200; deserialization refuses it with a 400. *)
Lemma update_empty_payload_refused :
  fst (RecommendationResource_put 1 [] st1)
  = inl (InvalidParameter "Invalid recommendation data") /\
  http_code (InvalidParameter "Invalid recommendation data") = 400.
Proof. split; reflexivity. Qed.

(* ------------------------------------------------------------------ *)
(** * Witnesses at concrete requests *)

(** Liking row 1, which has three likes, gives four likes. *)
Lemma like_dislike_increment_witness :
  wf_db st1.(db) /\
  fst (LikeResource_put 1 st1) = inr (200, serialize (mkRec 1 10 20 "cross-sell" "active" 4 0 5 7)) /\
  fst (DislikeResource_put 1 st1) = inr (200, serialize (mkRec 1 10 20 "cross-sell" "active" 3 1 5 7)) /\
  (exists msg, fst (LikeResource_put 2 st1) = inl (NotFound msg)).
Proof.
  split; [exact wf_st1|].
  pose proof (like_dislike_increment st1 1 wf_st1) as H1.
  pose proof (like_dislike_increment st1 2 wf_st1) as H2.
  vm_compute in H1, H2.
  destruct H1 as (_ & _ & L & _ & D & _). destruct H2 as (N & _).
  split; [exact L|]. split; [exact D|]. exact N.
Defined.

(** Deleting the absent id 2 answers 204 and keeps the store. *)
Lemma delete_idempotent_witness :
  wf_db st1.(db) /\
  fst (RecommendationResource_delete 2 st1) = inr (204, BEmpty) /\
  (snd (RecommendationResource_delete 2 st1)).(db) = st1.(db).
Proof.
  split; [exact wf_st1|].
  destruct (delete_idempotent st1 2 wf_st1) as (H & _ & Hn).
  split; [exact H|]. apply Hn. reflexivity.
Defined.

(** Liking row 1 keeps its dislikes and leaves key 2 alone. *)
Lemma like_dislike_frame_witness :
  wf_db st1.(db) /\ st1.(db) !! 1 = Some row1 /\
  (snd (LikeResource_put 1 st1)).(db) !! 2 = st1.(db) !! 2.
Proof.
  split; [exact wf_st1|]. split; [reflexivity|].
  destruct (like_dislike_frame st1 1 row1 wf_st1 eq_refl) as (_ & _ & Hk).
  apply (Hk 2). lia.
Defined.

(** Liking, updating or getting the absent id 5 leaves the store as it was. *)
Lemma notfound_atomic_witness :
  (snd (LikeResource_put 5 st1)).(db) = st1.(db) /\
  (snd (RecommendationResource_put 5 [] st1)).(db) = st1.(db) /\
  (snd (DislikeResource_put 5 st1)).(db) = st1.(db).
Proof.
  destruct (notfound_atomic st1 5 []) as (_ & Hu & Hl & Hd).
  split; [apply (Hl "Recommendation with id was not found."); reflexivity|].
  split; [apply (Hu "Recommendation with id was not found."); reflexivity|].
  apply (Hd "Recommendation with id was not found."); reflexivity.
Defined.

(** A payload carrying [id = 99] updates row 1 and the row keeps id 1; a
    payload without [like] and [dislike], its keys in another order,
    updates row 1 with both counters 0. *)
Lemma update_replaces_witness :
  fst (RecommendationResource_put 1
         [("product_id", JInt 11); ("recommended_id", JInt 21);
          ("recommendation_type", JStr "up-sell"); ("status", JStr "draft");
          ("like", JInt 0); ("dislike", JInt 2); ("id", JInt 99)] st1)
  = inr (200, serialize (mkRec 1 11 21 "up-sell" "draft" 0 2 5 7)) /\
  fst (RecommendationResource_put 1
         [("status", JStr "active"); ("recommendation_type", JStr "accessory");
          ("recommended_id", JInt 30); ("product_id", JInt 12)] st1)
  = inr (200, serialize (mkRec 1 12 30 "accessory" "active" 0 0 5 7)).
Proof.
  destruct (update_replaces st1 1) as [_ Hs].
  destruct (Hs row1 eq_refl) as [Hok _].
  split.
  - refine (proj1 (Hok [("product_id", JInt 11); ("recommended_id", JInt 21);
          ("recommendation_type", JStr "up-sell"); ("status", JStr "draft");
          ("like", JInt 0); ("dislike", JInt 2); ("id", JInt 99)] 11 21 "up-sell" "draft" 0 2
          eq_refl eq_refl eq_refl eq_refl eq_refl eq_refl _ _)).
    + right. split; [reflexivity|lia].
    + right. split; [reflexivity|lia].
  - refine (proj1 (Hok [("status", JStr "active"); ("recommendation_type", JStr "accessory");
          ("recommended_id", JInt 30); ("product_id", JInt 12)] 12 30 "accessory" "active" 0 0
          eq_refl eq_refl eq_refl eq_refl eq_refl eq_refl _ _)).
    + left. split; reflexivity.
    + left. split; reflexivity.
Defined.

(** [product_id=abc] is refused; [page=2] is put in as the integer 2. *)
Lemma filters_int_params_witness :
  (exists msg, fst (build_filters (IP := cpython_int) [("product_id", "abc")] s0) = inl (InvalidParameter msg) /\
               http_code (InvalidParameter msg) = 400) /\
  dict_get "page" [("page", VInt 2); ("status", VStr "active"); ("order", VStr "zz")]
  = Some (VInt 2).
Proof.
  split.
  - apply (proj1 (filters_int_params (IP := cpython_int) [("product_id", "abc")] s0) "product_id" "abc");
      [cbn; tauto|reflexivity|reflexivity].
  - apply (proj2 (filters_int_params (IP := cpython_int) [("order", "zz"); ("status", "active"); ("page", "2")] s0)
             _ "page" "2" 2); [reflexivity|cbn; tauto|reflexivity|reflexivity].
Defined.

(** [recommendation_type=bogus] is refused; [status=active] is kept. *)
Lemma filters_enum_params_witness :
  (exists msg, fst (build_filters (IP := cpython_int) [("recommendation_type", "bogus")] s0)
               = inl (InvalidParameter msg) /\ http_code (InvalidParameter msg) = 400) /\
  dict_get "status" [("page", VInt 2); ("status", VStr "active"); ("order", VStr "zz")]
  = Some (VStr "active").
Proof.
  split.
  - apply (proj1 (filters_enum_params (IP := cpython_int) [("recommendation_type", "bogus")] s0) "bogus");
      reflexivity.
  - apply (proj2 (proj2 (proj2 (filters_enum_params (IP := cpython_int)
             [("order", "zz"); ("status", "active"); ("page", "2")] s0)))
             _ "active"); reflexivity.
Defined.

(** With [order=zz] and no [product_id], the filters have [order] (as
    given) and no [product_id]. *)
Lemma filters_keys_witness :
  dict_get "order" [("page", VInt 2); ("status", VStr "active"); ("order", VStr "zz")]
  = Some (VStr "zz") /\
  ~ is_Some (dict_get "product_id"
               [("page", VInt 2); ("status", VStr "active"); ("order", VStr "zz")]).
Proof.
  destruct (filters_keys (IP := cpython_int) [("order", "zz"); ("status", "active"); ("page", "2")] s0)
    as (_ & Hok & _).
  destruct (Hok _ eq_refl) as (Hk & _ & _ & Ho).
  split; [apply Ho; reflexivity|].
  rewrite (Hk "product_id"); [|cbn; tauto]. intros [v Hv]. discriminate.
Defined.

(** [page=2] is accepted, with the same filters in two different states,
    and nothing is logged. *)
Lemma filters_deterministic_witness :
  build_filters (IP := cpython_int) [("page", "2")] s0 = (inr [("page", VInt 2)], s0) /\
  build_filters (IP := cpython_int) [("page", "2")] st1 = (inr [("page", VInt 2)], st1).
Proof.
  destruct (filters_deterministic (IP := cpython_int) [("page", "2")]) as (r & new & H & Hn).
  pose proof (H s0) as H0. vm_compute in H0. injection H0 as Hr _.
  subst r. rewrite (Hn _ eq_refl) in H.
  split; rewrite H; reflexivity.
Defined.

(* ------------------------------------------------------------------ *)
(** * Further properties of the handlers *)

Lemma wf_insert_own (m : gmap Z Recommendation) (k : Z) (r : Recommendation) :
  wf_db m -> r.(id) = k -> wf_db (<[k := r]> m).
Proof.
  intros Hwf Hid k' r' H. destruct (decide (k = k')) as [<-|Hne].
  - rewrite lookup_insert_eq in H. by injection H as <-.
  - rewrite lookup_insert_ne in H; [|done]. by apply Hwf.
Qed.

Lemma wf_delete (m : gmap Z Recommendation) (k : Z) :
  wf_db m -> wf_db (delete k m).
Proof.
  intros Hwf k' r' H. destruct (decide (k = k')) as [<-|Hne].
  - by rewrite lookup_delete_eq in H.
  - rewrite lookup_delete_ne in H; [|done]. by apply Hwf.
Qed.

Lemma like_outcome (s : St) (rid : Z) (Hwf : wf_db s.(db)) :
  (snd (LikeResource_put rid s)).(clock) = s.(clock) /\
  match s.(db) !! rid with
  | Some r =>
      let r' := set_last_updated (set_like r (r.(like) + 1)) s.(clock) in
      fst (LikeResource_put rid s) = inr (200, serialize r') /\
      (snd (LikeResource_put rid s)).(db) = <[rid := r']> s.(db)
  | None =>
      fst (LikeResource_put rid s) = inl (NotFound "Recommendation with id was not found.") /\
      (snd (LikeResource_put rid s)).(db) = s.(db)
  end.
Proof.
  run_handler. destruct (db s !! rid) as [r|] eqn:E; cbn; [|done].
  rewrite (Hwf _ _ E). done.
Qed.

Lemma dislike_outcome (s : St) (rid : Z) (Hwf : wf_db s.(db)) :
  (snd (DislikeResource_put rid s)).(clock) = s.(clock) /\
  match s.(db) !! rid with
  | Some r =>
      let r' := set_last_updated (set_dislike r (r.(dislike) + 1)) s.(clock) in
      fst (DislikeResource_put rid s) = inr (200, serialize r') /\
      (snd (DislikeResource_put rid s)).(db) = <[rid := r']> s.(db)
  | None =>
      fst (DislikeResource_put rid s) = inl (NotFound "Recommendation with id was not found.") /\
      (snd (DislikeResource_put rid s)).(db) = s.(db)
  end.
Proof.
  run_handler. destruct (db s !! rid) as [r|] eqn:E; cbn; [|done].
  rewrite (Hwf _ _ E). done.
Qed.

Lemma delete_outcome (s : St) (rid : Z) (Hwf : wf_db s.(db)) :
  fst (RecommendationResource_delete rid s) = inr (204, BEmpty) /\
  (snd (RecommendationResource_delete rid s)).(db) = delete rid s.(db) /\
  (snd (RecommendationResource_delete rid s)).(clock) = s.(clock).
Proof.
  run_handler. destruct (db s !! rid) as [r|] eqn:E; cbn.
  - by rewrite (Hwf _ _ E).
  - split; [done|]. split; [|done]. symmetry. by apply delete_id.
Qed.

Lemma get_outcome (s : St) (rid : Z) :
  (snd (RecommendationResource_get rid s)).(db) = s.(db) /\
  fst (RecommendationResource_get rid s) =
  match s.(db) !! rid with
  | Some r => inr (200, serialize r)
  | None => inl (NotFound "Recommendation with id was not found.")
  end.
Proof. run_handler. by destruct (db s !! rid). Qed.

Lemma put_outcome (s : St) (rid : Z) (data : payload) :
  (snd (RecommendationResource_put rid data s)).(clock) = s.(clock) /\
  (((exists e, fst (RecommendationResource_put rid data s) = inl e) /\
    (snd (RecommendationResource_put rid data s)).(db) = s.(db)) \/
   (exists r r1, s.(db) !! rid = Some r /\ fst (deserialize data r s) = inr r1 /\
      let r3 := set_last_updated (set_id r1 rid) s.(clock) in
      fst (RecommendationResource_put rid data s) = inr (200, serialize r3) /\
      (snd (RecommendationResource_put rid data s)).(db) = <[rid := r3]> s.(db))).
Proof.
  run_handler. destruct (db s !! rid) as [r|] eqn:E; cbn; [|eauto].
  set (s1 := mkSt _ _ _).
  pose proof (deserialize_state data r s1) as Hst.
  pose proof (deserialize_result data r s s1) as Hres.
  destruct (deserialize data r s1) as [[e|x] s'] eqn:D; cbn in *; subst s'; cbn.
  - eauto.
  - split; [done|]. right. exists r, x. by rewrite Hres.
Qed.

Lemma counter_nonneg (k : string) (data : payload) (l : Z) :
  match jget k data with
  | None => Some 0
  | Some (JInt n) => if 0 <=? n then Some n else None
  | Some _ => None
  end = Some l -> 0 <= l.
Proof.
  destruct (jget k data) as [[n| |]|]; cbn; try discriminate.
  - destruct (0 <=? n) eqn:E; intros H; [|discriminate].
    injection H as <-. by apply Z.leb_le.
  - intros H. injection H as <-. lia.
Qed.

Lemma deserialize_fields (data : payload) (r r1 : Recommendation) (s : St) :
  fst (deserialize data r s) = inr r1 ->
  0 <= r1.(like) /\ 0 <= r1.(dislike) /\ r1.(created_at) = r.(created_at).
Proof.
  pose proof (counter_nonneg "like" data) as Hl.
  pose proof (counter_nonneg "dislike" data) as Hd.
  unfold deserialize. cbv beta zeta.
  destruct (match jget "like" data with
            | None => Some 0
            | Some (JInt n) => if 0 <=? n then Some n else None
            | Some _ => None
            end) as [l|]; [|destruct (jget "product_id" data) as [[]|],
            (jget "recommended_id" data) as [[]|], (jget "recommendation_type" data) as [[]|],
            (jget "status" data) as [[]|]; cbn; discriminate].
  destruct (match jget "dislike" data with
            | None => Some 0
            | Some (JInt n) => if 0 <=? n then Some n else None
            | Some _ => None
            end) as [d|]; [|destruct (jget "product_id" data) as [[]|],
            (jget "recommended_id" data) as [[]|], (jget "recommendation_type" data) as [[]|],
            (jget "status" data) as [[]|]; cbn; discriminate].
  specialize (Hl l eq_refl). specialize (Hd d eq_refl).
  destruct (jget "product_id" data) as [[]|], (jget "recommended_id" data) as [[]|],
    (jget "recommendation_type" data) as [[]|], (jget "status" data) as [[]|];
    cbn; try discriminate.
  destruct (_ && _); cbn; [|discriminate].
  intros H. injection H as <-. cbn. lia.
Qed.

(** X2: get, put, like and dislike never add or remove a row; delete
    removes exactly the row of the path id. *)
Theorem handlers_row_ids (s : St) (rid : Z) (data : payload) (Hwf : wf_db s.(db)) :
  dom (snd (RecommendationResource_get rid s)).(db) = dom s.(db) /\
  dom (snd (RecommendationResource_put rid data s)).(db) = dom s.(db) /\
  dom (snd (LikeResource_put rid s)).(db) = dom s.(db) /\
  dom (snd (DislikeResource_put rid s)).(db) = dom s.(db) /\
  dom (snd (RecommendationResource_delete rid s)).(db) = dom s.(db) ∖ {[rid]}.
Proof.
  split; [by rewrite (proj1 (get_outcome s rid))|].
  split.
  { destruct (put_outcome s rid data) as [_ [[_ ->]|(r & r1 & E & _ & _ & ->)]];
      [done|]. apply dom_insert_lookup_L. by exists r. }
  split.
  { destruct (like_outcome s rid Hwf) as [_ H].
    destruct (db s !! rid) as [r|] eqn:E; destruct H as [_ ->]; [|done].
    apply dom_insert_lookup_L. by exists r. }
  split.
  { destruct (dislike_outcome s rid Hwf) as [_ H].
    destruct (db s !! rid) as [r|] eqn:E; destruct H as [_ ->]; [|done].
    apply dom_insert_lookup_L. by exists r. }
  destruct (delete_outcome s rid Hwf) as (_ & -> & _). apply dom_delete_L.
Qed.

(** X3: read-your-write: after a successful put, like or dislike, a get
    on the same id answers with the very response the update returned. *)
Theorem update_then_get (s : St) (rid : Z) (data : payload) (Hwf : wf_db s.(db)) :
  (forall resp, fst (RecommendationResource_put rid data s) = inr resp ->
     fst (RecommendationResource_get rid (snd (RecommendationResource_put rid data s)))
     = inr resp) /\
  (forall resp, fst (LikeResource_put rid s) = inr resp ->
     fst (RecommendationResource_get rid (snd (LikeResource_put rid s))) = inr resp) /\
  (forall resp, fst (DislikeResource_put rid s) = inr resp ->
     fst (RecommendationResource_get rid (snd (DislikeResource_put rid s))) = inr resp).
Proof.
  split; [|split]; intros resp Hr; rewrite (proj2 (get_outcome _ rid)).
  - destruct (put_outcome s rid data) as [_ [[[e He] _]|(r & r1 & _ & _ & Ho & ->)]].
    + by rewrite He in Hr.
    + rewrite lookup_insert_eq. by rewrite Ho in Hr.
  - destruct (like_outcome s rid Hwf) as [_ H].
    destruct (db s !! rid) as [r|] eqn:E; destruct H as [Ho Hd];
      rewrite Ho in Hr; [|discriminate]. rewrite Hd, lookup_insert_eq. done.
  - destruct (dislike_outcome s rid Hwf) as [_ H].
    destruct (db s !! rid) as [r|] eqn:E; destruct H as [Ho Hd];
      rewrite Ho in Hr; [|discriminate]. rewrite Hd, lookup_insert_eq. done.
Qed.

Lemma missing_row_outcome (s : St) (rid : Z) (data : payload) :
  s.(db) !! rid = None ->
  fst (RecommendationResource_get rid s) = inl (NotFound "Recommendation with id was not found.") /\
  fst (RecommendationResource_put rid data s) = inl (NotFound "Recommendation with id was not found.") /\
  fst (LikeResource_put rid s) = inl (NotFound "Recommendation with id was not found.") /\
  fst (DislikeResource_put rid s) = inl (NotFound "Recommendation with id was not found.").
Proof. intros E. run_handler. by rewrite E. Qed.

(** X4: once a row is deleted, get, put, like and dislike on its id all
    answer 404, whatever the put body is. *)
Theorem deleted_row_gone (s : St) (rid : Z) (data : payload) (Hwf : wf_db s.(db)) :
  let s' := snd (RecommendationResource_delete rid s) in
  fst (RecommendationResource_get rid s') = inl (NotFound "Recommendation with id was not found.") /\
  fst (RecommendationResource_put rid data s') = inl (NotFound "Recommendation with id was not found.") /\
  fst (LikeResource_put rid s') = inl (NotFound "Recommendation with id was not found.") /\
  fst (DislikeResource_put rid s') = inl (NotFound "Recommendation with id was not found.") /\
  http_code (NotFound "Recommendation with id was not found.") = 404.
Proof.
  intros s'. split; [|split; [|split; [|split]]]; try reflexivity;
    apply (missing_row_outcome s' rid data); subst s';
    destruct (delete_outcome s rid Hwf) as (_ & -> & _); apply lookup_delete_eq.
Qed.

Lemma like_step_wf (s : St) (rid : Z) :
  wf_db s.(db) -> wf_db (snd (LikeResource_put rid s)).(db).
Proof.
  intros Hwf. destruct (like_outcome s rid Hwf) as [_ H].
  destruct (db s !! rid) as [r|] eqn:E; destruct H as [_ ->]; [|done].
  apply wf_insert_own; [done|]. cbn. exact (Hwf _ _ E).
Qed.


(** X5: [n] like requests on a stored row raise its like count by
    exactly [n]; its other fields, apart from the update stamp, and every
    other row are left as they were. *)
Theorem likes_add_up (n : nat) (s : St) (rid : Z) (r : Recommendation)
  (Hwf : wf_db s.(db)) (Hr : s.(db) !! rid = Some r) :
  (exists stamp, (likes n rid s).(db) !! rid
                 = Some (set_last_updated (set_like r (r.(like) + Z.of_nat n)) stamp)) /\
  (forall k, k <> rid -> (likes n rid s).(db) !! k = s.(db) !! k).
Proof.
  revert s r Hwf Hr. induction n as [|n IH]; intros s r Hwf Hr; cbn.
  - split; [|done]. exists r.(last_updated). rewrite Hr.
    unfold set_last_updated, set_like; destruct r; cbn. by rewrite Z.add_0_r.
  - destruct (like_outcome s rid Hwf) as [Hc H]. rewrite Hr in H.
    destruct H as [_ Hd].
    set (s1 := snd (LikeResource_put rid s)) in *.
    set (r1 := set_last_updated (set_like r (like r + 1)) (clock s)).
    assert (Hr1 : s1.(db) !! rid = Some r1) by (rewrite Hd; apply lookup_insert_eq).
    destruct (IH s1 r1 (like_step_wf s rid Hwf) Hr1) as [[stamp Hs] Hk].
    split.
    + exists stamp. rewrite Hs. subst r1. unfold set_last_updated, set_like; cbn.
      assert (E : like r + 1 + Z.of_nat n = like r + Z.of_nat (S n)) by lia.
      by rewrite E.
    + intros k Hne. rewrite Hk by done. rewrite Hd. by apply lookup_insert_ne.
Qed.


Lemma counters_nonneg_insert (m : gmap Z Recommendation) (k : Z) (r : Recommendation) :
  counters_nonneg m -> 0 <= r.(like) -> 0 <= r.(dislike) ->
  counters_nonneg (<[k := r]> m).
Proof.
  intros Hm Hl Hd k' r' H. destruct (decide (k = k')) as [<-|Hne].
  - rewrite lookup_insert_eq in H. by injection H as <-.
  - rewrite lookup_insert_ne in H; [|done]. by apply (Hm k').
Qed.

(** X7: no handler ever makes a like or dislike count negative: put
    refuses negative counters, like and dislike only count up. *)
Theorem handlers_keep_counters (s : St) (rid : Z) (data : payload)
  (Hwf : wf_db s.(db)) (Hc : counters_nonneg s.(db)) :
  counters_nonneg (snd (RecommendationResource_get rid s)).(db) /\
  counters_nonneg (snd (RecommendationResource_put rid data s)).(db) /\
  counters_nonneg (snd (LikeResource_put rid s)).(db) /\
  counters_nonneg (snd (DislikeResource_put rid s)).(db) /\
  counters_nonneg (snd (RecommendationResource_delete rid s)).(db).
Proof.
  split; [by rewrite (proj1 (get_outcome s rid))|].
  split.
  { destruct (put_outcome s rid data) as [_ [[_ ->]|(r & r1 & _ & D & _ & ->)]];
      [done|]. apply deserialize_fields in D as (Hl & Hd & _).
    by apply counters_nonneg_insert. }
  split.
  { destruct (like_outcome s rid Hwf) as [_ H].
    destruct (db s !! rid) as [r|] eqn:E; destruct H as [_ ->]; [|done].
    destruct (Hc _ _ E). apply counters_nonneg_insert; cbn; [done|lia|lia]. }
  split.
  { destruct (dislike_outcome s rid Hwf) as [_ H].
    destruct (db s !! rid) as [r|] eqn:E; destruct H as [_ ->]; [|done].
    destruct (Hc _ _ E). apply counters_nonneg_insert; cbn; [done|lia|lia]. }
  destruct (delete_outcome s rid Hwf) as (_ & -> & _).
  intros k r H. apply (Hc k). by apply lookup_delete_Some in H as [_ ?].
Qed.

(* ------------------------------------------------------------------ *)
(** * Further properties of the list route's filter builder *)

Section BuilderExtras.
Context {IP : IntParser}.

Lemma when_int_state (a : parsed_args) (q : query) (k : string) (f0 f' : filters)
  (s s' : St) :
  when_present a k (int_step q k) f0 s = (inr f', s') -> s' = s.
Proof.
  unfold when_present, int_step, parse_int_param.
  destruct (arg_lookup k a) as [[x|]|]; cbn; try (intros [= _ <-]; done).
  destruct (args_get k q ≫= py_int); cbn; [by intros [= _ <-]|discriminate].
Qed.

Lemma when_enum_state (a : parsed_args) (k : string) (opts : list string)
  (f0 f' : filters) (s s' : St) :
  when_present a k (enum_step k opts) f0 s = (inr f', s') -> s' = s.
Proof.
  unfold when_present, enum_step, validate_enum_param.
  destruct (arg_lookup k a) as [[x|]|]; cbn; try (intros [= _ <-]; done).
  destruct (match x with VStr v => str_in v opts | VInt _ => false end); cbn;
    [by intros [= _ <-]|discriminate].
Qed.

Lemma when_pass_state (a : parsed_args) (k : string) (f0 f' : filters) (s s' : St) :
  when_present a k (pass_step k) f0 s = (inr f', s') -> s' = s.
Proof.
  unfold when_present, pass_step.
  destruct (arg_lookup k a) as [[x|]|]; cbn; by intros [= _ <-].
Qed.

Lemma when_enum_err_exact (a : parsed_args) (k : string) (opts : list string)
  (f0 : filters) (s s' : St) (e : err) :
  when_present a k (enum_step k opts) f0 s = (inl e, s') ->
  e = InvalidParameter ("Invalid " ++ k ++ ": must be one of [" ++ py_str_list opts ++ "]") /\
  s' = mkSt s.(db) s.(clock) (s.(log) ++ [LogError ("Invalid " ++ k)]).
Proof.
  unfold when_present, enum_step, validate_enum_param.
  destruct (arg_lookup k a) as [[x|]|]; cbn; try discriminate.
  destruct (match x with VStr v => str_in v opts | VInt _ => false end); cbn;
    [discriminate|].
  by intros [= <- <-].
Qed.

(** X9: in the list route the integer check of [parse_int_param] never
    fires: a refused query gets either the parser's "Input payload
    validation failed", with nothing logged, or the refusal of
    [recommendation_type] (checked first) or of [status], with one error
    line logged; "Invalid data type: must be an integer" is never the
    answer. *)
Theorem list_route_errors (q : query) (s s' : St) (e : err)
  (H : build_filters q s = (inl e, s')) :
  (e = InvalidParameter "Input payload validation failed" /\ s' = s) \/
  (e = InvalidParameter
         "Invalid recommendation_type: must be one of ['cross-sell', 'up-sell', 'accessory']" /\
   s' = mkSt s.(db) s.(clock) (s.(log) ++ [LogError "Invalid recommendation_type"])) \/
  (e = InvalidParameter "Invalid status: must be one of ['active', 'expired', 'draft']" /\
   s' = mkSt s.(db) s.(clock) (s.(log) ++ [LogError "Invalid status"])).
Proof.
  unfold build_filters in H. apply bind_inl in H as [Hp|(a & s1 & Hp & Hf)].
  - apply parse_from_err in Hp as (-> & -> & _). by left.
  - apply parse_args_ok in Hp as [-> ->]. unfold filters_from_args in Hf.
    apply bind_inl in Hf as [Hs|(f1 & s2 & H1 & Hf)];
      [exfalso; refine (int_step_expected _ _ _ _ _ _ _ Hs); cbn; tauto|].
    apply when_int_state in H1 as ->.
    apply bind_inl in Hf as [Hs|(f2 & s3 & H2 & Hf)];
      [exfalso; refine (int_step_expected _ _ _ _ _ _ _ Hs); cbn; tauto|].
    apply when_int_state in H2 as ->.
    apply bind_inl in Hf as [Hs|(f3 & s4 & H3 & Hf)];
      [exfalso; refine (int_step_expected _ _ _ _ _ _ _ Hs); cbn; tauto|].
    apply when_int_state in H3 as ->.
    apply bind_inl in Hf as [Hs|(f4 & s5 & H4 & Hf)];
      [exfalso; refine (int_step_expected _ _ _ _ _ _ _ Hs); cbn; tauto|].
    apply when_int_state in H4 as ->.
    apply bind_inl in Hf as [Hs|(f5 & s6 & H5 & Hf)].
    { apply when_enum_err_exact in Hs as [-> ->]. right. by left. }
    apply when_enum_state in H5 as ->.
    apply bind_inl in Hf as [Hs|(f6 & s7 & H6 & Hf)].
    { apply when_enum_err_exact in Hs as [-> ->]. by right; right. }
    apply bind_inl in Hf as [Hs|(f7 & s8 & _ & Hf)];
      [exfalso; exact (when_pass_err _ _ _ _ _ _ Hs)|].
    exfalso; exact (when_pass_err _ _ _ _ _ _ Hf).
Qed.

Lemma mapM_Some_all {A B} (f : A -> option B) (l : list A) (ys : list B) (x : A) :
  mapM f l = Some ys -> In x l -> is_Some (f x).
Proof.
  revert ys. induction l as [|y l IH]; intros ys; cbn; [by intros _ []|].
  destruct (f y) eqn:Ef; cbn; [|discriminate].
  destruct (mapM f l) eqn:Em; cbn; [|discriminate].
  intros _ [<-|Hx]; [by eexists|]. by apply (IH l0).
Qed.

Lemma view_any_bad (k : string) (t : arg_type) (q : query) (v : string) :
  In v (args_getlist k q) -> convert t v = None -> argument_parse_values k t q = None.
Proof.
  unfold argument_parse_values. destruct (args_getlist k q) as [|v0 vs]; [by intros []|].
  intros Hin Hc. destruct (mapM (convert t) (v0 :: vs)) as [ys|] eqn:Em; [|done].
  destruct (mapM_Some_all _ _ _ _ Em Hin) as [y Hy]. congruence.
Qed.

(** X10: when an integer parameter is repeated, every value is checked, not
    only the first one the filters use: one value that is not an integer
    anywhere in the query makes the route refuse it with "Input payload
    validation failed", with nothing logged, even if the first value is a
    valid integer. *)
Theorem repeated_int_param_checked (q : query) (s : St) (k v : string)
  (Hk : In k int_keys) (Hv : In v (args_getlist k q)) (Hn : py_int v = None) :
  build_filters q s = (inl (InvalidParameter "Input payload validation failed"), s).
Proof.
  assert (Hb : argument_parse_values k TInt q = None)
    by (apply (view_any_bad _ _ _ v Hv); cbn; by rewrite Hn).
  assert (Hin : In (k, TInt) recommendation_args)
    by (cbn in Hk |- *; intuition congruence).
  unfold build_filters, mbind at 1, M_bind at 1, parse_args.
  by rewrite (parse_from_fail _ _ s _ _ Hin Hb).
Qed.

Lemma nested_keys (o1 o2 o3 o4 o5 o6 o7 o8 : option pyval) :
  let f := opt_set "order" o8 (opt_set "sort_by" o7 (opt_set "status" o6
             (opt_set "recommendation_type" o5 (opt_set "limit" o4 (opt_set "page" o3
             (opt_set "recommended_id" o2 (opt_set "product_id" o1 []))))))) in
  map fst f = List.filter (fun k => match dict_get k f with Some _ => true | None => false end)
                filter_order.
Proof.
  destruct o1, o2, o3, o4, o5, o6, o7, o8; reflexivity.
Qed.

Lemma NoDup_filter_order : NoDup filter_order.
Proof. apply (bool_decide_unpack _). reflexivity. Qed.

(** A successful run of [filters_from_args], on any parsed arguments: the
    state is untouched and the filters are the eight guarded updates. *)
Lemma filters_from_args_run (args : parsed_args) (q : query) (s s' : St) (f : filters) :
  filters_from_args args q s = (inr f, s') ->
  s' = s /\
  let ip k := match arg_lookup k args with
              | Some (Some _) => VInt <$> (args_get k q ≫= py_int) | _ => None end in
  let sp k := match arg_lookup k args with Some o => o | None => None end in
  f = opt_set "order" (sp "order") (opt_set "sort_by" (sp "sort_by")
        (opt_set "status" (sp "status")
        (opt_set "recommendation_type" (sp "recommendation_type")
        (opt_set "limit" (ip "limit") (opt_set "page" (ip "page")
        (opt_set "recommended_id" (ip "recommended_id")
        (opt_set "product_id" (ip "product_id") []))))))).
Proof.
  unfold filters_from_args. intros Hf.
  apply bind_inr in Hf as (f1 & s2 & H1 & Hf).
  apply bind_inr in Hf as (f2 & s3 & H2 & Hf).
  apply bind_inr in Hf as (f3 & s4 & H3 & Hf).
  apply bind_inr in Hf as (f4 & s5 & H4 & Hf).
  apply bind_inr in Hf as (f5 & s6 & H5 & Hf).
  apply bind_inr in Hf as (f6 & s7 & H6 & Hf).
  apply bind_inr in Hf as (f7 & s8 & H7 & H8).
  pose proof (when_int_state _ _ _ _ _ _ _ H1) as ->.
  pose proof (when_int_state _ _ _ _ _ _ _ H2) as ->.
  pose proof (when_int_state _ _ _ _ _ _ _ H3) as ->.
  pose proof (when_int_state _ _ _ _ _ _ _ H4) as ->.
  pose proof (when_enum_state _ _ _ _ _ _ _ H5) as ->.
  pose proof (when_enum_state _ _ _ _ _ _ _ H6) as ->.
  pose proof (when_pass_state _ _ _ _ _ _ H7) as ->.
  pose proof (when_pass_state _ _ _ _ _ _ H8) as ->.
  apply when_int_ok in H1, H2, H3, H4.
  apply when_enum_ok in H5 as [H5 _]. apply when_enum_ok in H6 as [H6 _].
  apply when_pass_ok in H7, H8.
  subst. split; reflexivity.
Qed.

(** X11: [filters_from_args] called on any parsed arguments: a key that is
    missing from them or maps to [None] is left out of the filters,
    whatever the raw query holds; a present integer key takes its value
    from the first raw value of the query (the parsed value only tells that
    the key is there); a present string key keeps the parsed value; no
    other key appears, and nothing is logged. *)
Theorem filters_from_args_values (args : parsed_args) (q : query) (s s' : St)
  (f : filters) (H : filters_from_args args q s = (inr f, s')) :
  s' = s /\
  forall k, dict_get k f =
    if str_in k filter_keys then
      match arg_lookup k args with
      | Some (Some x) => if str_in k int_keys then VInt <$> (args_get k q ≫= py_int)
                         else Some x
      | _ => None
      end
    else None.
Proof.
  apply filters_from_args_run in H as [-> ->]. split; [done|]. intros k.
  rewrite !dict_get_opt_set. unfold filter_keys, int_keys, str_keys, str_in. cbn.
  repeat match goal with
  | |- context [String.eqb k ?lit] =>
      destruct (String.eqb_spec k lit) as [->|?]; cbn
  end; try reflexivity.
  all: repeat case_match; congruence.
Qed.

(** X12: the filters dict lists its keys in the order of the checks of
    [filters_from_args] (product_id, recommended_id, page, limit,
    recommendation_type, status, sort_by, order), each at most once. *)
Theorem filters_key_order (args : parsed_args) (q : query) (s s' : St)
  (f : filters) (H : filters_from_args args q s = (inr f, s')) :
  map fst f = List.filter (fun k => match dict_get k f with Some _ => true | None => false end)
                filter_order /\
  NoDup (map fst f).
Proof.
  apply filters_from_args_run in H as [_ ->].
  rewrite nested_keys. split; [done|].
  apply NoDup_ListNoDup, List.NoDup_filter, NoDup_ListNoDup, NoDup_filter_order.
Qed.

Lemma deserialize_err (data : payload) (r : Recommendation) (s : St) (e : err) :
  fst (deserialize data r s) = inl e -> e = InvalidParameter "Invalid recommendation data".
Proof.
  unfold deserialize.
  repeat match goal with
  | |- context [match ?x with _ => _ end] => destruct x
  end; cbn; congruence.
Qed.

(** X8: a refused update changes no row: whether the id is unknown (404)
    or the body is refused (400), the store is left as it was, since the
    body is read before the row is written. *)
Theorem put_refused_atomic (s : St) (rid : Z) (data : payload) (e : err)
  (H : fst (RecommendationResource_put rid data s) = inl e) :
  (snd (RecommendationResource_put rid data s)).(db) = s.(db) /\
  (snd (RecommendationResource_put rid data s)).(clock) = s.(clock) /\
  ((e = NotFound "Recommendation with id was not found." /\ s.(db) !! rid = None) \/
   (e = InvalidParameter "Invalid recommendation data" /\ is_Some (s.(db) !! rid))).
Proof.
  revert H. run_handler. destruct (db s !! rid) as [r|] eqn:E; cbn.
  2: { intros [= <-]. split; [done|]. split; [done|]. by left. }
  set (s1 := mkSt _ _ _).
  pose proof (deserialize_state data r s1) as Hst.
  pose proof (deserialize_err data r s1) as Her.
  destruct (deserialize data r s1) as [[e'|x] s'] eqn:D; cbn in *; subst s'; cbn.
  - intros [= <-]. split; [done|]. split; [done|]. right. split; [by apply Her|by eexists].
  - discriminate.
Qed.

End BuilderExtras.

(** ** [int()] reads back the decimal form of every integer *)

Lemma digit_char (d : N) :
  (d < 10)%N ->
  digit_val (ascii_of_N (48 + d)) = Z.of_N d /\ is_digit (ascii_of_N (48 + d)) = true.
Proof.
  intros Hd.
  assert (d = 0 \/ d = 1 \/ d = 2 \/ d = 3 \/ d = 4 \/ d = 5 \/ d = 6 \/ d = 7 \/
          d = 8 \/ d = 9)%N as Hc by lia.
  decompose [or] Hc; subst d; split; reflexivity.
Qed.

Lemma dec_rev_digits (f : nat) (m : N) :
  Forall (fun c => is_digit c = true) (dec_rev f m).
Proof.
  revert m. induction f as [|f IH]; intros m; cbn; [constructor|].
  constructor.
  - apply digit_char, N.mod_lt. lia.
  - destruct (m <? 10)%N; [constructor|apply IH].
Qed.

Lemma dec_rev_value (f : nat) (m : N) :
  (m < 10 ^ N.of_nat f)%N ->
  fold_right (fun c a => a * 10 + digit_val c) 0 (dec_rev f m) = Z.of_N m.
Proof.
  revert m. induction f as [|f IH]; intros m Hm.
  - cbn in Hm. cbn. lia.
  - cbn [dec_rev fold_right].
    assert (Hmod : (m mod 10 < 10)%N) by (apply N.mod_lt; lia).
    rewrite (proj1 (digit_char _ Hmod)).
    assert (Hdm : m = (10 * (m / 10) + m mod 10)%N) by (apply N.div_mod; lia).
    destruct (N.ltb_spec m 10) as [Hlt|Hge]; cbn [fold_right].
    + rewrite N.mod_small by done. lia.
    + rewrite IH.
      * lia.
      * apply N.Div0.div_lt_upper_bound.
        rewrite Nat2N.inj_succ, N.pow_succ_r' in Hm. lia.
Qed.

Lemma size_fuel (m : N) : (m < 10 ^ N.of_nat (S (N.to_nat (N.size m))))%N.
Proof.
  rewrite Nat2N.inj_succ, N2Nat.id.
  apply (N.lt_le_trans _ (2 ^ N.size m)); [apply N.size_gt|].
  apply (N.le_trans _ (10 ^ N.size m)).
  - apply N.pow_le_mono_l. lia.
  - apply N.pow_le_mono_r; lia.
Qed.

Lemma fold_left_rev_value (l : list ascii) (a : Z) :
  fold_left (fun x c => x * 10 + digit_val c) (rev l) a =
  fold_right (fun c x => x * 10 + digit_val c) a l.
Proof.
  revert a. induction l as [|c l IH]; intros a; [reflexivity|].
  cbn. rewrite fold_left_app. cbn. by rewrite IH.
Qed.

Lemma more_digits_value (l : list ascii) (acc : Z) :
  Forall (fun c => is_digit c = true) l ->
  more_digits l acc = Some (fold_left (fun x c => x * 10 + digit_val c) l acc).
Proof.
  intros Hl. revert acc. induction Hl as [|c l Hc Hl IH]; intros acc; [reflexivity|].
  cbn. rewrite Hc. apply IH.
Qed.

Lemma digit_not_space (c : ascii) : is_digit c = true -> is_space c = false.
Proof.
  unfold is_digit, is_space. intros H.
  apply andb_true_iff in H as [H1 H2]. apply Nat.leb_le in H1, H2.
  apply Bool.not_true_iff_false.
  rewrite !orb_true_iff, !andb_true_iff, !Nat.leb_le, Nat.eqb_eq. lia.
Qed.

Lemma drop_spaces_id (c : ascii) (l : list ascii) :
  is_space c = false -> drop_spaces (c :: l) = c :: l.
Proof. intros H. cbn. by rewrite H. Qed.

Lemma strip_id (c d : ascii) (l : list ascii) :
  is_space c = false -> is_space d = false -> strip (c :: l ++ [d]) = c :: l ++ [d].
Proof.
  intros Hc Hd. unfold strip. rewrite drop_spaces_id by done.
  rewrite app_comm_cons, rev_app_distr. cbn [rev app].
  rewrite drop_spaces_id by done.
  cbn [rev]. rewrite rev_app_distr, rev_involutive. reflexivity.
Qed.

Lemma digits_shape (l : list ascii) :
  l <> [] -> Forall (fun c => is_digit c = true) l ->
  exists c m d, l = c :: m ++ [d] /\ is_digit c = true /\ is_digit d = true \/
  exists c, l = [c] /\ is_digit c = true.
Proof.
  intros Hne Hl. destruct l as [|c l]; [done|].
  apply Forall_cons in Hl as [Hc Hl].
  destruct l as [|c' l'] using rev_ind.
  - exists c, [], c. right. by exists c.
  - exists c, l', c'. left. split; [done|]. split; [done|].
    apply Forall_app in Hl as [_ Hl]. by apply Forall_cons in Hl as [? _].
Qed.

Lemma str_N_value (m : N) :
  let D := rev (dec_rev (S (N.to_nat (N.size m))) m) in
  list_ascii_of_string (str_N m) = D /\ D <> [] /\
  Forall (fun c => is_digit c = true) D /\
  unsigned_digits D = Some (Z.of_N m).
Proof.
  intros D. unfold str_N. rewrite list_ascii_of_string_of_list_ascii.
  assert (HF : Forall (fun c => is_digit c = true) D)
    by (apply Forall_rev, dec_rev_digits).
  assert (HD : D <> []).
  { subst D. cbn [dec_rev]. intros Hr. apply (f_equal (@List.length ascii)) in Hr.
    rewrite length_rev in Hr. discriminate. }
  split; [done|]. split; [done|]. split; [done|].
  destruct D as [|c rest] eqn:ED; [done|].
  apply Forall_cons in HF as [Hc Hr]. cbn. rewrite Hc.
  rewrite more_digits_value by done.
  rewrite <- (dec_rev_value _ _ (size_fuel m)), <- fold_left_rev_value.
  fold D. rewrite ED. reflexivity.
Qed.

Lemma strip_keep (l : list ascii) :
  (forall c, hd_error l = Some c -> is_space c = false) ->
  (forall c, hd_error (rev l) = Some c -> is_space c = false) ->
  strip l = l.
Proof.
  intros Hh Hl. unfold strip. destruct l as [|c l]; [reflexivity|].
  rewrite (drop_spaces_id c l) by (apply Hh; reflexivity).
  destruct (rev (c :: l)) as [|d r] eqn:E.
  - apply (f_equal (@List.length ascii)) in E. rewrite length_rev in E. discriminate.
  - rewrite (drop_spaces_id d r) by (apply Hl; rewrite ?E; reflexivity).
    rewrite <- E. apply rev_involutive.
Qed.

Lemma map_to_ascii_id (l : list ascii) :
  Forall (fun c => (nat_of_ascii c < 127)%nat) l -> map to_ascii_char l = l.
Proof.
  induction 1 as [|c l Hc Hl IH]; [reflexivity|].
  cbn. rewrite IH. unfold to_ascii_char.
  destruct (Nat.ltb_spec (nat_of_ascii c) 127); [reflexivity|lia].
Qed.

Lemma digit_small (c : ascii) : is_digit c = true -> (nat_of_ascii c < 127)%nat.
Proof.
  unfold is_digit. intros H.
  apply andb_true_iff in H as [_ H]. apply Nat.leb_le in H. lia.
Qed.

Lemma filter_digits (l : list ascii) :
  Forall (fun c => is_digit c = true) l -> List.filter is_digit l = l.
Proof. induction 1 as [|c l Hc Hl IH]; [reflexivity|]. cbn. by rewrite Hc, IH. Qed.

(** The text of [str(n)]: an optional minus sign, then the digits of |n|. *)
Lemma py_str_int_text (n : Z) :
  list_ascii_of_string (py_str_int n) =
  (if n <? 0 then ["-"%char] else []) ++
  rev (dec_rev (S (N.to_nat (N.size (Z.abs_N n)))) (Z.abs_N n)).
Proof.
  destruct n as [|p|p]; cbn [Z.ltb Z.compare app].
  - reflexivity.
  - exact (proj1 (str_N_value (Npos p))).
  - change (list_ascii_of_string (py_str_int (Z.neg p)))
      with ("-"%char :: list_ascii_of_string (str_N (N.pos p))).
    exact (f_equal (cons "-"%char) (proj1 (str_N_value (Npos p)))).
Qed.

Lemma py_int_str_digits (n : Z) :
  let D := rev (dec_rev (S (N.to_nat (N.size (Z.abs_N n)))) (Z.abs_N n)) in
  py_int_latin1 (py_str_int n) =
  if (max_str_digits <? List.length D)%nat then None else Some n.
Proof.
  intros D. destruct (str_N_value (Z.abs_N n)) as (_ & Hne & HF & Hv). fold D in Hne, HF, Hv.
  unfold py_int_latin1. rewrite py_str_int_text. fold D.
  assert (Hpre : Forall (fun c => (nat_of_ascii c < 127)%nat) (if n <? 0 then ["-"%char] else [])
                 /\ List.filter is_digit (if n <? 0 then ["-"%char] else []) = []).
  { destruct (n <? 0); split; repeat constructor. }
  destruct Hpre as [Hps Hpd].
  rewrite map_to_ascii_id.
  2: { apply Forall_app. split; [done|]. eapply Forall_impl; [exact HF|]. apply digit_small. }
  destruct D as [|c rest] eqn:ED; [done|].
  assert (Hc : is_digit c = true) by (by apply Forall_cons in HF as [? _]).
  assert (Hlast : forall d, hd_error (rev (c :: rest)) = Some d -> is_digit d = true).
  { intros d Hd. apply (Forall_rev (P := fun c => is_digit c = true)) in HF.
    destruct (rev (c :: rest)) as [|d' r]; [discriminate|].
    injection Hd as ->. by apply Forall_cons in HF as [? _]. }
  rewrite strip_keep.
  2: { intros d Hd. destruct (n <? 0); cbn in Hd; injection Hd as <-;
       [reflexivity|by apply digit_not_space]. }
  2: { intros d Hd. rewrite rev_app_distr in Hd.
       destruct (rev (c :: rest)) as [|d' r] eqn:Er.
       - apply (f_equal (@List.length ascii)) in Er. rewrite length_rev in Er. discriminate.
       - cbn in Hd. injection Hd as <-. apply digit_not_space, Hlast. rewrite ?Er; reflexivity. }
  unfold digit_count. rewrite List.filter_app, Hpd, filter_digits by done. cbn [app].
  destruct (max_str_digits <? List.length (c :: rest))%nat; [reflexivity|].
  rewrite Zabs2N.id_abs in Hv.
  destruct (Z.ltb_spec n 0) as [Hn|Hn]; cbn [app].
  - cbn [Ascii.eqb Bool.eqb]. rewrite Hv. cbn. f_equal. lia.
  - destruct (Ascii.eqb_spec c "-"%char) as [->|_]; [discriminate|].
    destruct (Ascii.eqb_spec c "+"%char) as [->|_]; [discriminate|].
    rewrite Hv. f_equal. lia.
Qed.

Lemma dec_rev_length_le (f : nat) (m k : N) :
  (m < 10 ^ k)%N -> (1 <= k)%N -> (List.length (dec_rev f m) <= N.to_nat k)%nat.
Proof.
  revert m k. induction f as [|f IH]; intros m k Hm Hk; cbn [dec_rev List.length]; [lia|].
  destruct (N.ltb_spec m 10) as [Hlt|Hge]; cbn [List.length]; [lia|].
  assert (Hk2 : (2 <= k)%N).
  { destruct (N.le_gt_cases 2 k) as [|Hk1]; [done|].
    assert (k = 1)%N as -> by lia. cbn in Hm. lia. }
  assert (Hpow : (10 ^ k = 10 * 10 ^ (k - 1))%N).
  { rewrite <- N.pow_succ_r'. f_equal. lia. }
  assert (Hlen : (List.length (dec_rev f (m / 10)) <= N.to_nat (k - 1))%nat).
  { apply IH; [|lia]. apply N.Div0.div_lt_upper_bound. lia. }
  lia.
Qed.

Lemma dec_rev_length_ge (f : nat) (m k : N) :
  (m < 10 ^ N.of_nat f)%N -> (10 ^ k <= m)%N ->
  (N.to_nat k < List.length (dec_rev f m))%nat.
Proof.
  revert m k. induction f as [|f IH]; intros m k Hm Hk.
  - cbn in Hm. assert (10 ^ k <> 0)%N by (apply N.pow_nonzero; lia). lia.
  - cbn [dec_rev List.length].
    destruct (N.eq_dec k 0) as [->|Hk0]; [lia|].
    assert (H10 : (10 <= 10 ^ k)%N).
    { rewrite <- (N.pow_1_r 10) at 1. apply N.pow_le_mono_r; lia. }
    destruct (N.ltb_spec m 10) as [Hlt|Hge]; [lia|].
    assert (Hpow : (10 ^ k = 10 * 10 ^ (k - 1))%N).
    { rewrite <- N.pow_succ_r'. f_equal. lia. }
    assert (Hlen : (N.to_nat (k - 1) < List.length (dec_rev f (m / 10)))%nat).
    { apply IH.
      - apply N.Div0.div_lt_upper_bound.
        rewrite Nat2N.inj_succ, N.pow_succ_r' in Hm. lia.
      - apply N.div_le_lower_bound; lia. }
    cbn [List.length]. lia.
Qed.

Lemma abs_bound (n : Z) (k : N) :
  Z.abs n < 10 ^ Z.of_N k <-> (Z.abs_N n < 10 ^ k)%N.
Proof.
  rewrite <- Zabs2N.id_abs. change 10 with (Z.of_N 10). rewrite <- N2Z.inj_pow. lia.
Qed.

(** [int()] reads back [str(n)] exactly when [n] has at most 4300 digits. *)
Lemma py_int_str_bound (n : Z) :
  (Z.abs n < 10 ^ 4300 -> py_int_latin1 (py_str_int n) = Some n) /\
  (10 ^ 4300 <= Z.abs n -> py_int_latin1 (py_str_int n) = None).
Proof.
  rewrite py_int_str_digits. rewrite length_rev.
  set (m := Z.abs_N n). set (f := S (N.to_nat (N.size m))).
  change (10 ^ 4300) with (10 ^ Z.of_N 4300).
  split; intros H.
  - apply abs_bound in H. fold m in H.
    pose proof (dec_rev_length_le f m 4300 H ltac:(lia)) as Hl.
    change (N.to_nat 4300) with max_str_digits in Hl.
    destruct (Nat.ltb_spec max_str_digits (List.length (dec_rev f m))); [lia|reflexivity].
  - assert (Hm : (10 ^ 4300 <= m)%N).
    { destruct (N.le_gt_cases (10 ^ 4300) m) as [|Hlt]; [done|].
      apply abs_bound in Hlt. lia. }
    pose proof (dec_rev_length_ge f m 4300 (size_fuel m) Hm) as Hl.
    change (N.to_nat 4300) with max_str_digits in Hl.
    destruct (Nat.ltb_spec max_str_digits (List.length (dec_rev f m))); [reflexivity|lia].
Qed.

(** X13: under CPython's [int()], a query with one integer parameter
    holding [str(n)] is accepted and yields the filters {k: n} for every
    [n] of at most 4300 digits, negative and zero included (the route puts
    no range check of its own on these parameters); from 4301 digits on,
    [int()] raises and the route refuses the query with 400. *)
Theorem int_param_roundtrip (n : Z) (s : St) (k : string) (Hk : In k int_keys) :
  (Z.abs n < 10 ^ 4300 ->
     build_filters (IP := cpython_int) [(k, py_str_int n)] s = (inr [(k, VInt n)], s)) /\
  (10 ^ 4300 <= Z.abs n ->
     build_filters (IP := cpython_int) [(k, py_str_int n)] s
     = (inl (InvalidParameter "Input payload validation failed"), s)).
Proof.
  destruct (py_int_str_bound n) as [Hok Hbad].
  cbn in Hk; split; intros Hn;
    decompose [or] Hk; try contradiction; subst k;
    cbv -[py_int_latin1 py_str_int].
  all: first [rewrite (Hok Hn) | rewrite (Hbad Hn)]; reflexivity.
Qed.

(* ------------------------------------------------------------------ *)
(** * Instances of the further properties *)

Lemma counters_st1 : counters_nonneg st1.(db).
Proof.
  intros k r H. cbn in H.
  apply lookup_singleton_Some in H as [<- <-]. cbn. lia.
Qed.

Lemma handlers_row_ids_witness :
  wf_db st1.(db) /\
  dom (snd (RecommendationResource_delete 1 st1)).(db) = dom st1.(db) ∖ {[1]}.
Proof.
  split; [exact wf_st1|].
  exact (proj2 (proj2 (proj2 (proj2 (handlers_row_ids st1 1 [] wf_st1))))).
Defined.

Lemma update_then_get_witness :
  wf_db st1.(db) /\
  fst (LikeResource_put 1 st1) = inr (200, serialize (mkRec 1 10 20 "cross-sell" "active" 4 0 5 7)) /\
  fst (RecommendationResource_get 1 (snd (LikeResource_put 1 st1)))
  = inr (200, serialize (mkRec 1 10 20 "cross-sell" "active" 4 0 5 7)).
Proof.
  split; [exact wf_st1|]. split; [reflexivity|].
  apply (proj1 (proj2 (update_then_get st1 1 [] wf_st1))). reflexivity.
Defined.

Lemma deleted_row_gone_witness :
  wf_db st1.(db) /\
  fst (LikeResource_put 1 (snd (RecommendationResource_delete 1 st1)))
  = inl (NotFound "Recommendation with id was not found.").
Proof.
  split; [exact wf_st1|].
  exact (proj1 (proj2 (proj2 (deleted_row_gone st1 1 [] wf_st1)))).
Defined.

Lemma likes_add_up_witness :
  wf_db st1.(db) /\ st1.(db) !! 1 = Some row1 /\
  exists stamp, (likes 3 1 st1).(db) !! 1
                = Some (set_last_updated (set_like row1 (row1.(like) + 3)) stamp).
Proof.
  split; [exact wf_st1|]. split; [reflexivity|].
  exact (proj1 (likes_add_up 3 st1 1 row1 wf_st1 eq_refl)).
Defined.


Lemma handlers_keep_counters_witness :
  wf_db st1.(db) /\ counters_nonneg st1.(db) /\
  counters_nonneg (snd (DislikeResource_put 1 st1)).(db).
Proof.
  split; [exact wf_st1|]. split; [exact counters_st1|].
  exact (proj1 (proj2 (proj2 (proj2
    (handlers_keep_counters st1 1 [] wf_st1 counters_st1))))).
Defined.

Lemma put_refused_atomic_witness :
  fst (RecommendationResource_put 1 [("product_id", JInt 11)] st1)
  = inl (InvalidParameter "Invalid recommendation data") /\
  (snd (RecommendationResource_put 1 [("product_id", JInt 11)] st1)).(db) = st1.(db).
Proof.
  split; [reflexivity|].
  exact (proj1 (put_refused_atomic st1 1 [("product_id", JInt 11)]
                  (InvalidParameter "Invalid recommendation data") eq_refl)).
Defined.

Lemma list_route_errors_witness :
  build_filters (IP := cpython_int) [("status", "bogus"); ("page", "2")] s0 =
  (inl (InvalidParameter "Invalid status: must be one of ['active', 'expired', 'draft']"),
   mkSt ∅ 0 [LogError "Invalid status"]) /\
  InvalidParameter "Invalid status: must be one of ['active', 'expired', 'draft']"
  <> InvalidParameter "Invalid data type: must be an integer".
Proof.
  split; [reflexivity|].
  destruct (list_route_errors (IP := cpython_int) [("status", "bogus"); ("page", "2")] s0
              (mkSt ∅ 0 [LogError "Invalid status"])
              (InvalidParameter "Invalid status: must be one of ['active', 'expired', 'draft']")
              eq_refl) as [[He _]|[[He _]|[He _]]];
    [discriminate He | discriminate He | discriminate].
Defined.

Lemma repeated_int_param_checked_witness :
  In "page" int_keys /\ In "x" (args_getlist "page" [("page", "2"); ("page", "x")]) /\
  @py_int cpython_int "x" = None /\
  args_get "page" [("page", "2"); ("page", "x")] = Some "2" /\ @py_int cpython_int "2" = Some 2 /\
  build_filters (IP := cpython_int) [("page", "2"); ("page", "x")] s0
  = (inl (InvalidParameter "Input payload validation failed"), s0).
Proof.
  split; [cbn; tauto|]. split; [cbn; tauto|]. split; [reflexivity|].
  split; [reflexivity|]. split; [reflexivity|].
  apply (repeated_int_param_checked (IP := cpython_int) _ s0 "page" "x"); [cbn; tauto|cbn; tauto|reflexivity].
Defined.

Lemma filters_from_args_values_witness :
  filters_from_args (IP := cpython_int) [("product_id", Some (VInt 99)); ("status", None); ("order", Some (VStr "asc"))]
    [("product_id", "7"); ("status", "bogus")] s0
  = (inr [("product_id", VInt 7); ("order", VStr "asc")], s0) /\
  dict_get "product_id" [("product_id", VInt 7); ("order", VStr "asc")] = Some (VInt 7) /\
  dict_get "status" [("product_id", VInt 7); ("order", VStr "asc")] = None.
Proof.
  split; [reflexivity|].
  destruct (filters_from_args_values (IP := cpython_int)
              [("product_id", Some (VInt 99)); ("status", None); ("order", Some (VStr "asc"))]
              [("product_id", "7"); ("status", "bogus")] s0 s0
              [("product_id", VInt 7); ("order", VStr "asc")] eq_refl) as [_ Hk].
  split; [rewrite Hk; reflexivity|rewrite Hk; reflexivity].
Defined.

Lemma filters_key_order_witness :
  filters_from_args (IP := cpython_int) [("order", Some (VStr "asc")); ("limit", Some (VInt 5))]
    [("order", "asc"); ("limit", "5")] s0
  = (inr [("limit", VInt 5); ("order", VStr "asc")], s0) /\
  map fst [("limit", VInt 5); ("order", VStr "asc")] = ["limit"; "order"].
Proof.
  split; [reflexivity|].
  rewrite (proj1 (filters_key_order (IP := cpython_int)
    [("order", Some (VStr "asc")); ("limit", Some (VInt 5))]
    [("order", "asc"); ("limit", "5")] s0 s0
    [("limit", VInt 5); ("order", VStr "asc")] eq_refl)).
  reflexivity.
Defined.

Lemma int_param_roundtrip_witness :
  py_str_int (-3) = "-3" /\ In "page" int_keys /\ Z.abs (-3) < 10 ^ 4300 /\
  build_filters (IP := cpython_int) [("page", py_str_int (-3))] s0 = (inr [("page", VInt (-3))], s0).
Proof.
  assert (Hb : Z.abs (-3) < 10 ^ 4300) by (vm_compute; reflexivity).
  split; [reflexivity|]. split; [cbn; tauto|]. split; [exact Hb|].
  apply (proj1 (int_param_roundtrip (-3) s0 "page" ltac:(cbn; tauto)) Hb).
Defined.
